(** * SeaBIOS boot.c: boot-device resolution and control transfer

    A shallow embedding of [src/boot.c] (printf_bootdev, print_boot_device,
    print_boot_failure, try_boot, do_boot, handle_18, handle_19) and the
    properties of it that the specification states.

    The C code runs on a machine whose memory holds the IPL table, the
    extended BIOS data area and the loaded boot sector; it talks to the
    console, the debug channel, the disk service, the CD-ROM emulation and
    finally to the boot program it jumps to.  Here the memory is an explicit
    [machine] record threaded through a small monad, every interaction with
    the outside is an [event] appended to a trace, and the collaborators that
    live in other files are the fields of a [Platform]. *)

From Stdlib Require Import ZArith List String Bool Lia.
Import ListNotations.
Local Open Scope string_scope.
Local Open Scope list_scope.
Local Open Scope Z_scope.

(** ** Fixed-width integers (types.h: u8, u16, u32) *)

Definition u8 (z : Z) : Z := z mod 2 ^ 8.
Definition u16 (z : Z) : Z := z mod 2 ^ 16.
Definition u32 (z : Z) : Z := z mod 2 ^ 32.

(** ** Constants of the headers

    boot.c takes these from boot.h, disk.h and bregs.h; the values below are
    the ones its own code relies on. *)

Module Const.

(** Modelled from the spec: boot.h's IPL_TYPE_* are missing.  The table
    [drivetypes] of boot.c names type 1 Floppy, 2 Hard Disk, 3 CD-Rom, and
    printf_bootdev's comment says the BEV type appears as 0x80. *)
Definition IPL_TYPE_FLOPPY : Z := 0x01.
Definition IPL_TYPE_HARDDISK : Z := 0x02.
Definition IPL_TYPE_CDROM : Z := 0x03.
Definition IPL_TYPE_BEV : Z := 0x80.

(** Modelled from the spec: disk.h's MBR_SIGNATURE is missing; the spec gives
    the fixed value 0xAA55, held in the trailing two bytes of the 512-byte
    sector (offset 510 of struct mbr_s). *)
Definition MBR_SIGNATURE : Z := 0xaa55.
Definition mbr_signature_offset : Z := 510.

(** Modelled from the spec: bregs.h's F_CF is missing; the disk collaborator
    "returns a carry/error flag", bit 0 of the x86 flags word. *)
Definition F_CF : Z := 0x0001.

End Const.
Import Const.

(** ** struct bregs *)

(** Modelled from the spec: bregs.h is missing.  The control-transfer frame
    of the spec holds "target instruction pointer, target code segment, a
    drive-identifier byte, and a fixed magic value"; the record has the x86
    register file that boot.c names through it: the segment registers ds and
    es, the seven 32-bit general registers, and ip, cs and flags.  The 16-bit
    and 8-bit registers boot.c assigns (ax, ah, al, cl, dl) are parts of the
    32-bit ones, as on the processor. *)
Record bregs : Type := mk_bregs {
  ds : Z; es : Z;
  edi : Z; esi : Z; ebp : Z; ebx : Z; edx : Z; ecx : Z; eax : Z;
  ip : Z; cs : Z; flags : Z
}.

(** memset(&cr, 0, sizeof(cr)) *)
Definition bregs_zero : bregs := mk_bregs 0 0 0 0 0 0 0 0 0 0 0 0.

Definition with_low8 (old v : Z) : Z := Z.lor (Z.land old 0xffffff00) (Z.land v 0xff).
Definition with_high8 (old v : Z) : Z :=
  Z.lor (Z.land old 0xffff00ff) (Z.shiftl (Z.land v 0xff) 8).
Definition with_low16 (old v : Z) : Z := Z.lor (Z.land old 0xffff0000) (Z.land v 0xffff).

Definition set_es (v : Z) (r : bregs) : bregs :=
  mk_bregs (ds r) (u16 v) (edi r) (esi r) (ebp r) (ebx r) (edx r) (ecx r) (eax r)
           (ip r) (cs r) (flags r).
Definition set_dl (v : Z) (r : bregs) : bregs :=
  mk_bregs (ds r) (es r) (edi r) (esi r) (ebp r) (ebx r) (with_low8 (edx r) v) (ecx r)
           (eax r) (ip r) (cs r) (flags r).
Definition set_cl (v : Z) (r : bregs) : bregs :=
  mk_bregs (ds r) (es r) (edi r) (esi r) (ebp r) (ebx r) (edx r) (with_low8 (ecx r) v)
           (eax r) (ip r) (cs r) (flags r).
Definition set_al (v : Z) (r : bregs) : bregs :=
  mk_bregs (ds r) (es r) (edi r) (esi r) (ebp r) (ebx r) (edx r) (ecx r)
           (with_low8 (eax r) v) (ip r) (cs r) (flags r).
Definition set_ah (v : Z) (r : bregs) : bregs :=
  mk_bregs (ds r) (es r) (edi r) (esi r) (ebp r) (ebx r) (edx r) (ecx r)
           (with_high8 (eax r) v) (ip r) (cs r) (flags r).
Definition set_ax (v : Z) (r : bregs) : bregs :=
  mk_bregs (ds r) (es r) (edi r) (esi r) (ebp r) (ebx r) (edx r) (ecx r)
           (with_low16 (eax r) v) (ip r) (cs r) (flags r).
Definition set_ip (v : Z) (r : bregs) : bregs :=
  mk_bregs (ds r) (es r) (edi r) (esi r) (ebp r) (ebx r) (edx r) (ecx r) (eax r)
           (u16 v) (cs r) (flags r).
Definition set_cs (v : Z) (r : bregs) : bregs :=
  mk_bregs (ds r) (es r) (edi r) (esi r) (ebp r) (ebx r) (edx r) (ecx r) (eax r)
           (ip r) (u16 v) (flags r).

Definition ax (r : bregs) : Z := Z.land (eax r) 0xffff.
Definition al (r : bregs) : Z := Z.land (eax r) 0xff.
Definition ah (r : bregs) : Z := Z.land (Z.shiftr (eax r) 8) 0xff.
Definition dl (r : bregs) : Z := Z.land (edx r) 0xff.
Definition dh (r : bregs) : Z := Z.land (Z.shiftr (edx r) 8) 0xff.
Definition cl (r : bregs) : Z := Z.land (ecx r) 0xff.

(** ** The IPL table (boot.h: struct ipl_entry_s, struct ipl_s) *)

(** Modelled from the spec: boot.h's struct ipl_entry_s is missing.  The
    spec's BootEntry has deviceType, description and entryVector; the fields
    carry the names boot.c reads them by. *)
Record ipl_entry_s : Type := mk_ipl_entry {
  type : Z;                       (* u16 *)
  vector : Z;                     (* u32 *)
  description : option string     (* char *, None for the null pointer *)
}.

(** Modelled from the spec: boot.h's struct ipl_s is missing.  The spec's
    BootTable is an ordered collection of entries with count and
    checkFloppySignature, and BootOrder is the 32-bit packed priority list;
    the fields carry the names boot.c reads them by. *)
Record ipl_s : Type := mk_ipl {
  table : list ipl_entry_s;
  count : Z;                      (* u16 *)
  bootorder : Z;                  (* u32 *)
  checkfloppysig : Z              (* u8 *)
}.

(** ** The machine *)

(** Modelled from the spec: biosvar.h's extended BIOS data area is missing.
    These are the fields boot.c reads or writes: the persistent
    boot-sequence counter, as wide as the u16 local handle_18 stores into
    it, and the emulated drive and load segment the CD-ROM emulation
    publishes. *)
Record ebda_s : Type := mk_ebda {
  boot_sequence : Z;              (* u16 *)
  cdemu_emulated_drive : Z;       (* u8 *)
  cdemu_load_segment : Z          (* u16 *)
}.

Record machine : Type := mk_machine {
  IPL : ipl_s;                    (* struct ipl_s IPL; *)
  ebda : ebda_s;
  ram : Z -> Z                    (* byte at a linear address *)
}.

Definition set_boot_sequence (v : Z) (m : machine) : machine :=
  mk_machine (IPL m)
    (mk_ebda v (cdemu_emulated_drive (ebda m)) (cdemu_load_segment (ebda m)))
    (ram m).

(** A 16-bit little-endian read at segment:offset. *)
Definition farvar16 (m : machine) (seg off : Z) : Z :=
  let a := seg * 16 + off in
  u8 (ram m a) + 256 * u8 (ram m (a + 1)).

(** ** Events: everything try_boot and the entry points do to the outside *)

Inductive arg : Type :=
| AInt (z : Z)
| AStr (s : string).

Inductive event : Type :=
| Printf (fmt : string) (args : list arg)               (* console output *)
| Dprintf (lvl : Z) (fmt : string) (args : list arg)    (* debug channel *)
| Panic (fmt : string)                                  (* BX_PANIC *)
| DebugSerialSetup
| DebugEnter (func : string)
| Int13 (request reply : bregs)                         (* call16_int(0x13, &cr) *)
| GetFarvar (seg off value : Z)                         (* GET_FARVAR *)
| CdromBoot (status : Z)                                (* cdrom_boot() *)
| SetBootSequence (prev next : Z)                       (* SET_EBDA(boot_sequence, ..) *)
| Int18 (request : bregs)                               (* call16_int(0x18, &br) *)
| Call16 (frame : bregs).                               (* call16(&cr) *)

(** ** The monad: machine state, event trace, and the ways a call can end *)

Inductive result (A : Type) : Type :=
| Returned (a : A) (m : machine)   (* the C function returned *)
| Halted (m : machine)             (* BX_PANIC: the machine stopped *)
| Departed                         (* the program jumped to kept control *)
| Exhausted (m : machine).         (* the model ran out of fuel *)
Arguments Returned {A} a m.
Arguments Halted {A} m.
Arguments Departed {A}.
Arguments Exhausted {A} m.

Definition M (A : Type) : Type := machine -> list event * result A.

Definition ret {A} (a : A) : M A := fun m => ([], Returned a m).

Definition bind {A B} (c : M A) (k : A -> M B) : M B :=
  fun m =>
    match c m with
    | (t, Returned a m') => let (t', r) := k a m' in (t ++ t', r)
    | (t, Halted m') => (t, Halted m')
    | (t, Departed) => (t, Departed)
    | (t, Exhausted m') => (t, Exhausted m')
    end.

Notation "x <- c ;; k" := (bind c (fun x => k))
  (at level 61, c at next level, right associativity).
Notation "c ;; k" := (bind c (fun _ => k))
  (at level 61, right associativity).

Definition gets {A} (f : machine -> A) : M A := fun m => ([], Returned (f m) m).
Definition emit (e : event) : M unit := fun m => ([e], Returned tt m).
Definition out_of_fuel {A} : M A := fun m => ([], Exhausted m).

Definition trace_of {A} (c : M A) (m : machine) : list event := fst (c m).
Definition result_of {A} (c : M A) (m : machine) : result A := snd (c m).

(** ** Collaborators outside boot.c *)

(** What boot.c takes from the rest of the firmware and from the hardware.
    - [CONFIG_BOOT], [CONFIG_CDROM_BOOT]: config.h.
    - [shr_beyond_width x n]: the value of the u32 shift [x >> n] when
      [n >= 32], which C leaves open (the 80386 shifts by [n mod 32]).
    - [table_beyond_end m i]: what [IPL.table[i]] reads when [i] is past the
      end of the array.
    - [int13]: the disk service behind call16_int(0x13, &cr); it gives back the
      registers and the machine with the sector in memory.
    - [cdrom_boot]: disk.h's cdrom_boot(), status and machine afterwards.
    - [call16]: the far call into the loaded program; [None] when the program
      never gives control back. *)
Class Platform : Type := {
  CONFIG_BOOT : bool;
  CONFIG_CDROM_BOOT : bool;
  shr_beyond_width : Z -> Z -> Z;
  table_beyond_end : machine -> Z -> ipl_entry_s;
  int13 : bregs -> machine -> bregs * machine;
  cdrom_boot : machine -> Z * machine;
  call16 : bregs -> machine -> option machine
}.

Section Boot.

Context {P : Platform}.

(** [x >> n] on a u32 [x]. *)
Definition shr32 (x n : Z) : Z :=
  if n <? 32 then Z.shiftr x n else shr_beyond_width x n.

(** [IPL.table[i]] *)
Definition IPL_table (m : machine) (i : Z) : ipl_entry_s :=
  match nth_error (table (IPL m)) (Z.to_nat i) with
  | Some e => e
  | None => table_beyond_end m i
  end.

(** Modelled from the spec: BX_PANIC (util.h) is missing.  "Fatal outcomes halt
    the entire boot process with a diagnostic message": the message is
    emitted and nothing after the call runs. *)
Definition BX_PANIC {A} (fmt : string) : M A :=
  fun m => ([Panic fmt], Halted m).

Definition printf (fmt : string) (args : list arg) : M unit := emit (Printf fmt args).
Definition dprintf (lvl : Z) (fmt : string) (args : list arg) : M unit :=
  emit (Dprintf lvl fmt args).

(** call16_int(0x13, &cr): [cr] is updated in place, so the reply is the
    value of the call. *)
Definition call16_int_13 (cr : bregs) : M bregs :=
  fun m => let (cr', m') := int13 cr m in ([Int13 cr cr'], Returned cr' m').

(** GET_FARVAR(seg, mbr->signature) with mbr = (void* )0. *)
Definition GET_FARVAR (seg off : Z) : M Z :=
  fun m => let v := farvar16 m seg off in ([GetFarvar seg off v], Returned v m).

Definition call_cdrom_boot : M Z :=
  fun m => let (status, m') := cdrom_boot m in ([CdromBoot status], Returned status m').

(** SET_EBDA(boot_sequence, v) and SET_EBDA2(ebda_seg, boot_sequence, v) *)
Definition SET_EBDA_boot_sequence (v : Z) : M unit :=
  fun m => ([SetBootSequence (boot_sequence (ebda m)) v],
            Returned tt (set_boot_sequence v m)).

(** call16(&cr) *)
Definition do_call16 (cr : bregs) : M unit :=
  fun m => match call16 cr m with
           | Some m' => ([Call16 cr], Returned tt m')
           | None => ([Call16 cr], Departed)
           end.

(** *** printf_bootdev, print_boot_device (boot.c 22-56) *)

Definition drivetypes : list string :=
  [""; "Floppy"; "Hard Disk"; "CD-Rom"; "Network"].

Definition printf_bootdev (bootdev : Z) : M unit :=
  type0 <- gets (fun m => type (IPL_table m bootdev)) ;;
  (* NIC appears as type 0x80 *)
  let type1 := if type0 =? IPL_TYPE_BEV then 0x4 else type0 in
  (if (type1 =? 0) || (type1 >? 0x4) then BX_PANIC "Bad drive type\n" else ret tt) ;;
  printf "%s" [AStr (nth (Z.to_nat type1) drivetypes "")] ;;
  (* print product string if BEV *)
  description_fl <- gets (fun m => description (IPL_table m bootdev)) ;;
  match description_fl with
  | Some d =>
      if type1 =? 4
      then printf " [%.s]" [AStr (substring 0 32 d)]   (* first 32 bytes *)
      else ret tt
  | None => ret tt
  end.

Definition print_boot_device (bootdev : Z) : M unit :=
  printf "Booting from " [] ;;
  printf_bootdev bootdev ;;
  printf "...\n" [].

(** *** print_boot_failure (boot.c 62-77) *)

Definition print_boot_failure (type reason : Z) : M unit :=
  (if (type =? 0) || (type >? 0x3) then BX_PANIC "Bad drive type\n" else ret tt) ;;
  printf "Boot failed" [] ;;
  (if type <? 4
   then (* Report the reason too *)
     if reason =? 0
     then printf ": not a bootable disk" []
     else printf ": could not read the boot disk" []
   else ret tt) ;;
  printf "\n\n" [].

(** *** try_boot (boot.c 79-185) *)

(** Canonicalize bootseg:bootip (boot.c 140-142 and 158-160); the result is
    the new (bootseg, bootip). *)
Definition canonicalize (bootseg : Z) : Z * Z :=
  let bootip := u16 (Z.shiftl (Z.land bootseg 0x0fff) 4) in
  let bootseg := Z.land bootseg 0xf000 in
  (bootseg, bootip).

(** The request of the sector read (boot.c 117-122). *)
Definition read_sector_request (bootdrv bootseg : Z) : bregs :=
  set_cl 1 (set_al 1 (set_ah 2 (set_es bootseg (set_dl bootdrv bregs_zero)))).

(** The frame of the final call (boot.c 178-183). *)
Definition boot_frame (bootseg bootip bootdrv : Z) : bregs :=
  set_ax 0xaa55 (set_dl bootdrv (set_cs bootseg (set_ip bootip bregs_zero))).

(** The arms of the switch give [None] where the C code returns from
    try_boot and [Some (bootseg, bootip, bootdrv)] where it breaks. *)

(** case IPL_TYPE_FLOPPY: case IPL_TYPE_HARDDISK: (boot.c 110-143) *)
Definition try_boot_disk (type : Z) : M (option (Z * Z * Z)) :=
  let bootdrv := if type =? IPL_TYPE_HARDDISK then 0x80 else 0x00 in
  let bootseg := 0x07c0 in
  (* Read sector *)
  cr <- call16_int_13 (read_sector_request bootdrv bootseg) ;;
  if negb (Z.land (flags cr) F_CF =? 0)
  then print_boot_failure type 1 ;; ret None
  else
    (* Always check the signature on a HDD boot sector; on FDD,
       only do the check if configured for it *)
    chk <- gets (fun m => checkfloppysig (IPL m)) ;;
    if negb (type =? IPL_TYPE_FLOPPY) || negb (chk =? 0)
    then
      sig <- GET_FARVAR bootseg mbr_signature_offset ;;
      if negb (sig =? MBR_SIGNATURE)
      then print_boot_failure type 0 ;; ret None
      else let (seg, off) := canonicalize bootseg in ret (Some (seg, off, bootdrv))
    else let (seg, off) := canonicalize bootseg in ret (Some (seg, off, bootdrv)).

(** case IPL_TYPE_CDROM: (boot.c 144-162) *)
Definition try_boot_cdrom (type : Z) : M (option (Z * Z * Z)) :=
  if negb CONFIG_CDROM_BOOT then ret None
  else
    status <- call_cdrom_boot ;;
    if negb (status =? 0)
    then
      printf "CDROM boot failure code : %04x\n" [AInt status] ;;
      print_boot_failure type 1 ;;
      ret None
    else
      bootdrv <- gets (fun m => cdemu_emulated_drive (ebda m)) ;;
      bootseg <- gets (fun m => cdemu_load_segment (ebda m)) ;;
      let (seg, off) := canonicalize bootseg in
      ret (Some (seg, off, bootdrv)).

(** case IPL_TYPE_BEV: (boot.c 163-170) *)
Definition try_boot_bev (bootdev : Z) : M (option (Z * Z * Z)) :=
  vector <- gets (fun m => vector (IPL_table m bootdev)) ;;
  let bootseg := u16 (Z.shiftr vector 16) in
  let bootip := u16 (Z.land vector 0xffff) in
  ret (Some (bootseg, bootip, 0)).

(** The 4-bit field of the boot order that try_boot looks at
    (boot.c 85-87). *)
Definition bootorder_field (order seq_nr : Z) : Z :=
  Z.land (shr32 order (4 * seq_nr)) 0xf.

(** switch(type) (boot.c 109-173) *)
Definition try_boot_switch (bootdev type : Z) : M (option (Z * Z * Z)) :=
  if (type =? IPL_TYPE_FLOPPY) || (type =? IPL_TYPE_HARDDISK)
  then try_boot_disk type
  else if type =? IPL_TYPE_CDROM then try_boot_cdrom type
  else if type =? IPL_TYPE_BEV then try_boot_bev bootdev
  else ret None.

(** The body of try_boot once the index is known to be in the table
    (boot.c 100-184). *)
Definition try_boot_load (bootdev : Z) : M unit :=
  (* Do the loading, and set up vector as a far pointer to the boot
     address, and bootdrv as the boot drive *)
  print_boot_device (u16 bootdev) ;;
  type <- gets (fun m => type (IPL_table m bootdev)) ;;
  loaded <- try_boot_switch bootdev type ;;
  match loaded with
  | None => ret tt
  | Some (bootseg, bootip, bootdrv) =>
      (* Debugging info *)
      dprintf 1 "Booting from %x:%x\n" [AInt bootseg; AInt bootip] ;;
      (* Set the magic number in ax and the boot drive in dl. *)
      do_call16 (boot_frame bootseg bootip bootdrv)
  end.

Definition try_boot (seq_nr : Z) : M unit :=
  (if negb CONFIG_BOOT then BX_PANIC "Boot support not compiled in.\n" else ret tt) ;;
  order <- gets (fun m => bootorder (IPL m)) ;;
  let bootdev := bootorder_field order seq_nr in
  if bootdev =? 0 then BX_PANIC "No bootable device.\n"
  else
    (* Translate bootdev to an IPL table offset by subtracting 1 *)
    let bootdev := u32 (bootdev - 1) in
    cnt <- gets (fun m => count (IPL m)) ;;
    if bootdev >=? cnt
    then dprintf 1 "Invalid boot device (0x%x)\n" [AInt bootdev]
    else try_boot_load bootdev.

(** *** do_boot, handle_18, handle_19 (boot.c 187-218)

    call16_int(0x18, &br) raises the boot-failure interrupt, whose handler is
    handle_18 ("invoke the boot recovery function").  The chain of nested
    recovery calls need not end, so the entry points take fuel: one unit per
    entry into handle_18. *)

Definition do_boot (int18 : M unit) (seq_nr : Z) : M unit :=
  try_boot seq_nr ;;
  (* Boot failed: invoke the boot recovery function *)
  emit (Int18 bregs_zero) ;;
  int18.

Fixpoint handle_18 (fuel : nat) : M unit :=
  match fuel with
  | O => out_of_fuel
  | S fuel' =>
      emit DebugSerialSetup ;;
      emit (DebugEnter "handle_18") ;;
      old <- gets (fun m => boot_sequence (ebda m)) ;;
      let seq := u16 (old + 1) in
      SET_EBDA_boot_sequence seq ;;
      do_boot (handle_18 fuel') seq
  end.

Definition handle_19 (fuel : nat) : M unit :=
  emit DebugSerialSetup ;;
  emit (DebugEnter "handle_19") ;;
  SET_EBDA_boot_sequence 0 ;;
  do_boot (handle_18 fuel) 0.

End Boot.

(** ** Reading traces *)

Definition is_call16 (e : event) : bool :=
  match e with Call16 _ => true | _ => false end.
Definition is_printf (e : event) : bool :=
  match e with Printf _ _ => true | _ => false end.
Definition is_panic (e : event) : bool :=
  match e with Panic _ => true | _ => false end.
Definition is_getfarvar (e : event) : bool :=
  match e with GetFarvar _ _ _ => true | _ => false end.
Definition is_device_io (e : event) : bool :=
  match e with
  | Int13 _ _ | GetFarvar _ _ _ | CdromBoot _ => true
  | _ => false
  end.
Definition is_printf_of (fmt : string) (e : event) : bool :=
  match e with Printf f _ => String.eqb f fmt | _ => false end.

(** Control was handed to a boot program. *)
Definition transfers (t : list event) : bool := existsb is_call16 t.
(** Something was written to the console. *)
Definition prints (t : list event) : bool := existsb is_printf t.
(** The console shows the text [fmt]. *)
Definition says (fmt : string) (t : list event) : bool := existsb (is_printf_of fmt) t.
(** print_boot_failure's message is on the console. *)
Definition reports_boot_failure (t : list event) : bool := says "Boot failed" t.
Definition panics (t : list event) : bool := existsb is_panic t.
Definition checks_signature (t : list event) : bool := existsb is_getfarvar t.
Definition does_device_io (t : list event) : bool := existsb is_device_io t.

(** The writes to the boot-sequence counter, oldest first, each with the
    value it replaced. *)
Fixpoint counter_writes (t : list event) : list (Z * Z) :=
  match t with
  | [] => []
  | SetBootSequence prev next :: t' => (prev, next) :: counter_writes t'
  | _ :: t' => counter_writes t'
  end.

(** The requests of the disk reads, oldest first. *)
Fixpoint int13_requests (t : list event) : list bregs :=
  match t with
  | [] => []
  | Int13 request _ :: t' => request :: int13_requests t'
  | _ :: t' => int13_requests t'
  end.

(** The CD-ROM boot routine was called. *)
Definition is_cdrom_boot (e : event) : bool :=
  match e with CdromBoot _ => true | _ => false end.
Definition calls_cdrom_boot (t : list event) : bool := existsb is_cdrom_boot t.

(** The recovery interrupt was raised. *)
Definition is_int18 (e : event) : bool :=
  match e with Int18 _ => true | _ => false end.

(** [n] writes in a row, each storing its predecessor's value plus one in 16
    bits, the first over [c]. *)
Fixpoint increments (c : Z) (n : nat) : list (Z * Z) :=
  match n with
  | O => []
  | S n' => (c, u16 (c + 1)) :: increments (u16 (c + 1)) n'
  end.

(** The call gave control back to its caller. *)
Definition came_back {A} (r : result A) : bool :=
  match r with Returned _ _ => true | _ => false end.

(** The call ended for good: the machine halted or a boot program runs. *)
Definition ended {A} (r : result A) : bool :=
  match r with Halted _ | Departed => true | _ => false end.

(** ** Vocabulary of the properties *)

Section Vocabulary.

Context {P : Platform}.

(** What print_boot_device puts on the console for a well-typed entry. *)
Definition banner (e : ipl_entry_s) : list event :=
  let type1 := if type e =? IPL_TYPE_BEV then 0x4 else type e in
  [Printf "Booting from " []; Printf "%s" [AStr (nth (Z.to_nat type1) drivetypes "")]]
  ++ match description e with
     | Some d => if type1 =? 4 then [Printf " [%.s]" [AStr (substring 0 32 d)]] else []
     | None => []
     end
  ++ [Printf "...\n" []].

(** The types printf_bootdev refuses. *)
Definition bad_drive_type (ty : Z) : bool :=
  let type1 := if ty =? IPL_TYPE_BEV then 0x4 else ty in
  (type1 =? 0) || (type1 >? 0x4).

(** What the end of try_boot makes of the switch's answer (boot.c 175-184). *)
Definition finish (frame : bregs) (m : machine) : result unit :=
  match call16 frame m with
  | Some m' => Returned tt m'
  | None => Departed
  end.

(** try_boot, called with [seq_nr], gets past the decoding of the boot order
    and the bound check, and works on entry [idx] of the table. *)
Definition dispatches (m : machine) (seq_nr idx : Z) : Prop :=
  CONFIG_BOOT = true /\
  bootorder_field (bootorder (IPL m)) seq_nr = idx + 1 /\
  0 <= idx < count (IPL m).

Definition is_load_event (e : event) : bool :=
  match e with
  | Printf _ _ | Int13 _ _ | GetFarvar _ _ _ | CdromBoot _ => true
  | _ => false
  end.

Inductive attempt (m : machine) (seq_nr : Z) : list event -> result unit -> Prop :=
| Unconfigured :
    CONFIG_BOOT = false ->
    attempt m seq_nr [Panic "Boot support not compiled in.\n"] (Halted m)
| NoBootableDevice :
    CONFIG_BOOT = true ->
    bootorder_field (bootorder (IPL m)) seq_nr = 0 ->
    attempt m seq_nr [Panic "No bootable device.\n"] (Halted m)
| InvalidBootDevice idx :
    CONFIG_BOOT = true ->
    bootorder_field (bootorder (IPL m)) seq_nr = idx + 1 ->
    0 <= idx -> count (IPL m) <= idx ->
    attempt m seq_nr [Dprintf 1 "Invalid boot device (0x%x)\n" [AInt idx]]
            (Returned tt m)
| BadDriveType idx :
    dispatches m seq_nr idx ->
    bad_drive_type (type (IPL_table m idx)) = true ->
    attempt m seq_nr [Printf "Booting from " []; Panic "Bad drive type\n"] (Halted m)
| NotLoaded idx t m' :
    dispatches m seq_nr idx ->
    bad_drive_type (type (IPL_table m idx)) = false ->
    try_boot_switch idx (type (IPL_table m idx)) m = (t, Returned None m') ->
    forallb is_load_event t = true ->
    attempt m seq_nr (banner (IPL_table m idx) ++ t) (Returned tt m')
| Loaded idx t m' bootseg bootip bootdrv :
    dispatches m seq_nr idx ->
    bad_drive_type (type (IPL_table m idx)) = false ->
    try_boot_switch idx (type (IPL_table m idx)) m =
      (t, Returned (Some (bootseg, bootip, bootdrv)) m') ->
    forallb is_load_event t = true ->
    attempt m seq_nr
            (banner (IPL_table m idx) ++ t ++
               [Dprintf 1 "Booting from %x:%x\n" [AInt bootseg; AInt bootip];
                Call16 (boot_frame bootseg bootip bootdrv)])
            (finish (boot_frame bootseg bootip bootdrv) m').

(** The sector read of the floppy and hard-disk arm, as the disk service
    answers it on machine [m]. *)
Definition sector_read (ty : Z) (m : machine) : bregs * machine :=
  int13 (read_sector_request (if ty =? IPL_TYPE_HARDDISK then 0x80 else 0x00) 0x07c0) m.

(** The carry flag is clear in the reply. *)
Definition read_ok (ty : Z) (m : machine) : Prop :=
  Z.land (flags (fst (sector_read ty m))) F_CF = 0.

(** The signature of the sector as it lies in memory after the read. *)
Definition loaded_signature (ty : Z) (m : machine) : Z :=
  farvar16 (snd (sector_read ty m)) 0x07c0 510.

(** A write that stores the old value plus one, in 16 bits. *)
Definition is_increment (w : Z * Z) : Prop := snd w = u16 (fst w + 1).

(** The collaborators leave [f] of the machine as they found it. *)
Definition keeps {X : Type} (f : machine -> X) : Prop :=
  (forall cr m, f (snd (int13 cr m)) = f m) /\
  (forall m, f (snd (cdrom_boot m)) = f m) /\
  (forall cr m m', call16 cr m = Some m' -> f m' = f m).

End Vocabulary.

(** ** Concrete machines *)

Module Demo.

(** The reply of a failed disk read: the request with the carry flag set. *)
Definition with_carry (cr : bregs) : bregs :=
  mk_bregs (ds cr) (es cr) (edi cr) (esi cr) (ebp cr) (ebx cr) (edx cr) (ecx cr)
           (eax cr) (ip cr) (cs cr) (Z.lor (flags cr) F_CF).

(** A PC that shifts by the count modulo 32, whose disk reads succeed or
    fail as [disk_ok] says, whose CD-ROM boot answers [cd_status], and whose
    boot programs return or not as [comes_back] says.  Past the end of the
    IPL table it reads zeroes. *)
Definition pc (disk_ok : bool) (cd_status : Z) (comes_back : bool) : Platform :=
  {| CONFIG_BOOT := true;
     CONFIG_CDROM_BOOT := true;
     shr_beyond_width := fun x n => Z.shiftr x (n mod 32);
     table_beyond_end := fun _ _ => mk_ipl_entry 0 0 None;
     int13 := fun cr m => (if disk_ok then cr else with_carry cr, m);
     cdrom_boot := fun m => (cd_status, m);
     call16 := fun _ m => if comes_back then Some m else None |}.

(** Memory that is zero but for the 16-bit [signature] in the last two bytes
    of the sector at 0x07c0:0000. *)
Definition ram_with_signature (signature : Z) : Z -> Z :=
  fun a =>
    if a =? 0x7dfe then signature mod 256
    else if a =? 0x7dff then signature / 256
    else 0.

Definition machine_of (entries : list ipl_entry_s) (order chk seq signature : Z) : machine :=
  mk_machine (mk_ipl entries (Z.of_nat (List.length entries)) order chk)
             (mk_ebda seq 0xe0 0x07c0)
             (ram_with_signature signature).

(** A PC with a working disk whose boot programs keep control. *)
Definition good : Platform := pc true 0 false.
(** A PC whose disk reads all fail. *)
Definition no_media : Platform := pc false 0 false.

Definition hard_disk : ipl_entry_s := mk_ipl_entry IPL_TYPE_HARDDISK 0 None.
Definition floppy : ipl_entry_s := mk_ipl_entry IPL_TYPE_FLOPPY 0 None.
Definition cdrom : ipl_entry_s := mk_ipl_entry IPL_TYPE_CDROM 0 None.
Definition rom : ipl_entry_s := mk_ipl_entry IPL_TYPE_BEV 0x12340056 (Some "PXE").

(** Hard disk first, then floppy; a signed boot sector. *)
Definition signed_disk : machine := machine_of [hard_disk; floppy] 0x21 0 0 0xaa55.
(** The same with a boot sector that lacks the signature. *)
Definition unsigned_disk : machine := machine_of [hard_disk; floppy] 0x21 0 0 0.
(** One expansion ROM. *)
Definition rom_only : machine := machine_of [rom] 0x1 0 0 0.
(** One entry of type 0. *)
Definition placeholder : machine := machine_of [mk_ipl_entry 0 0 None] 0x1 0 0 0.
(** One entry of type 4. *)
Definition type_four : machine := machine_of [mk_ipl_entry 4 0 None] 0x1 0 0 0.
(** The order names entry 2 of a table of two. *)
Definition beyond_count : machine := machine_of [hard_disk; floppy] 0x3 0 0 0.
(** One CD-ROM. *)
Definition cd_only : machine := machine_of [cdrom] 0x1 0 0 0.
(** A PC whose CD-ROM emulation answers status 3. *)
Definition cd_fails : Platform := pc true 3 false.
(** A firmware built without boot support. *)
Definition no_boot : Platform :=
  {| CONFIG_BOOT := false;
     CONFIG_CDROM_BOOT := false;
     shr_beyond_width := fun x n => Z.shiftr x (n mod 32);
     table_beyond_end := fun _ _ => mk_ipl_entry 0 0 None;
     int13 := fun cr m => (cr, m);
     cdrom_boot := fun m => (0, m);
     call16 := fun _ _ => None |}.
(** An empty boot order, and the counter at its largest value. *)
Definition wrapped : machine := machine_of [] 0 0 0xffff 0.
(** The counter in the middle of its range. *)
Definition third_attempt : machine := machine_of [hard_disk; floppy] 0x21 0 2 0.

End Demo.

(** ** Arithmetic of the fixed-width operations *)

Lemma land_0xf_range (x : Z) : 0 <= Z.land x 0xf < 16.
Proof.
  change 0xf with (Z.ones 4). rewrite Z.land_ones by lia.
  change (2 ^ 4) with 16. apply Z.mod_pos_bound. lia.
Qed.

Lemma u32_small (x : Z) : 0 <= x < 2 ^ 32 -> u32 x = x.
Proof. intros H. unfold u32. apply Z.mod_small. exact H. Qed.

Lemma u16_small (x : Z) : 0 <= x < 2 ^ 16 -> u16 x = x.
Proof. intros H. unfold u16. apply Z.mod_small. exact H. Qed.

Lemma land_low12_shift (s : Z) :
  u16 (Z.shiftl (Z.land s 0x0fff) 4) = 16 * (s mod 2 ^ 12).
Proof.
  change 0x0fff with (Z.ones 12). rewrite Z.land_ones by lia.
  rewrite Z.shiftl_mul_pow2 by lia.
  assert (H : 0 <= s mod 2 ^ 12 < 2 ^ 12) by (apply Z.mod_pos_bound; lia).
  rewrite u16_small; lia.
Qed.

Lemma split_segment (s : Z) :
  Z.land s 0xf000 + Z.land s 0x0fff = s mod 2 ^ 16.
Proof.
  rewrite <- (Z.land_ones s 16) by lia.
  change (Z.ones 16) with (Z.lor 0xf000 0x0fff).
  rewrite Z.land_lor_distr_r.
  rewrite <- Z.add_lor_land.
  replace (Z.land (Z.land s 0xf000) (Z.land s 0x0fff)) with 0; [lia |].
  rewrite (Z.land_comm s 0x0fff), Z.land_assoc, <- (Z.land_assoc s).
  change (Z.land 0xf000 0x0fff) with 0.
  rewrite Z.land_0_r, Z.land_0_l. reflexivity.
Qed.

Lemma land_0xf000_range (s : Z) : 0 <= Z.land s 0xf000 < 2 ^ 16.
Proof.
  pose proof (split_segment s) as H.
  assert (0 <= Z.land s 0xf000) by (apply Z.land_nonneg; right; lia).
  assert (0 <= Z.land s 0x0fff) by (apply Z.land_nonneg; right; lia).
  assert (0 <= s mod 2 ^ 16 < 2 ^ 16) by (apply Z.mod_pos_bound; lia).
  lia.
Qed.

Lemma canonicalize_flat (s : Z) :
  fst (canonicalize s) * 16 + snd (canonicalize s) = (s * 16) mod 2 ^ 20.
Proof.
  unfold canonicalize. cbn [fst snd].
  rewrite land_low12_shift.
  change 0x0fff with (Z.ones 12) in *.
  pose proof (split_segment s) as H.
  change 0x0fff with (Z.ones 12) in H. rewrite Z.land_ones in H by lia.
  change (2 ^ 20) with (2 ^ 16 * 16).
  rewrite Z.mul_mod_distr_r by lia. lia.
Qed.

(** C3: canonicalization law.  For a 16-bit load segment S the pair try_boot
    derives, offset = (S & 0x0fff) << 4 and segment = S & 0xf000, flattens
    back to S*16 truncated to 20 bits, which is S*16 itself. *)
Theorem canonicalization_law (S : Z) :
  0 <= S < 2 ^ 16 ->
  let offset := Z.shiftl (Z.land S 0x0fff) 4 in
  let segment := Z.land S 0xf000 in
  canonicalize S = (segment, offset) /\
  segment * 16 + offset = (S * 16) mod 2 ^ 20 /\
  segment * 16 + offset = S * 16.
Proof.
  intros HS offset segment.
  assert (Ho : u16 offset = offset).
  { unfold offset. rewrite land_low12_shift.
    change 0x0fff with (Z.ones 12). rewrite Z.land_ones by lia.
    rewrite Z.shiftl_mul_pow2 by lia. lia. }
  assert (Hc : canonicalize S = (segment, offset)).
  { unfold canonicalize. fold offset segment. rewrite Ho. reflexivity. }
  pose proof (canonicalize_flat S) as Hflat. rewrite Hc in Hflat. cbn [fst snd] in Hflat.
  repeat split; [exact Hc | exact Hflat |].
  rewrite Hflat. apply Z.mod_small. lia.
Qed.

(** ** Running the monad *)

Lemma bind_halted {A B} (c : M A) (k : A -> M B) m t m' :
  c m = (t, Halted m') -> bind c k m = (t, Halted m').
Proof. intros H. unfold bind. rewrite H. reflexivity. Qed.

(** Unfolds the plumbing of the monad, leaving the tests and the
    collaborators' answers in place. *)
Ltac run_monad :=
  cbv beta iota zeta delta
    [bind ret gets emit printf dprintf BX_PANIC out_of_fuel fst snd
     trace_of result_of];
  cbn [app negb orb andb].

Ltac case_if :=
  match goal with
  | |- context [if ?c then _ else _] => destruct c eqn:?
  end.

Section Properties.

Context {P : Platform}.

(** *** print_boot_device *)

Lemma print_boot_device_run (bootdev : Z) (m : machine) :
  print_boot_device bootdev m =
  if bad_drive_type (type (IPL_table m bootdev))
  then ([Printf "Booting from " []; Panic "Bad drive type\n"], Halted m)
  else (banner (IPL_table m bootdev), Returned tt m).
Proof.
  unfold print_boot_device, printf_bootdev, bad_drive_type, banner.
  run_monad.
  destruct (((if type (IPL_table m bootdev) =? IPL_TYPE_BEV
              then 4 else type (IPL_table m bootdev)) =? 0)
            || ((if type (IPL_table m bootdev) =? IPL_TYPE_BEV
                 then 4 else type (IPL_table m bootdev)) >? 4)).
  - reflexivity.
  - run_monad. destruct (description (IPL_table m bootdev)) as [d |].
    + destruct ((if type (IPL_table m bootdev) =? IPL_TYPE_BEV
                 then 4 else type (IPL_table m bootdev)) =? 4); reflexivity.
    + reflexivity.
Qed.

(** *** try_boot, one block at a time *)

Lemma bootorder_field_range (order seq_nr : Z) :
  0 <= bootorder_field order seq_nr < 16.
Proof. unfold bootorder_field. apply land_0xf_range. Qed.

(** boot.c 82-98: the configuration test, the decoding of the boot order
    and the bound check. *)
Lemma try_boot_run (seq_nr : Z) (m : machine) :
  CONFIG_BOOT = true ->
  try_boot seq_nr m =
  let field := bootorder_field (bootorder (IPL m)) seq_nr in
  if field =? 0 then ([Panic "No bootable device.\n"], Halted m)
  else if field - 1 >=? count (IPL m)
  then ([Dprintf 1 "Invalid boot device (0x%x)\n" [AInt (field - 1)]], Returned tt m)
  else try_boot_load (field - 1) m.
Proof.
  intros Hcfg. unfold try_boot. rewrite Hcfg. run_monad.
  pose proof (bootorder_field_range (bootorder (IPL m)) seq_nr) as Hr.
  destruct (Z.eqb_spec (bootorder_field (bootorder (IPL m)) seq_nr) 0) as [E | E].
  - reflexivity.
  - rewrite u32_small by lia.
    destruct (bootorder_field (bootorder (IPL m)) seq_nr - 1 >=? count (IPL m)).
    + reflexivity.
    + destruct (try_boot_load _ m). reflexivity.
Qed.

Lemma try_boot_unconfigured (seq_nr : Z) (m : machine) :
  CONFIG_BOOT = false ->
  try_boot seq_nr m = ([Panic "Boot support not compiled in.\n"], Halted m).
Proof. intros Hcfg. unfold try_boot. rewrite Hcfg. reflexivity. Qed.

(** boot.c 100-184 for an index that fits 16 bits. *)
Lemma try_boot_load_run (bootdev : Z) (m : machine) :
  0 <= bootdev < 2 ^ 16 ->
  try_boot_load bootdev m =
  let e := IPL_table m bootdev in
  if bad_drive_type (type e)
  then ([Printf "Booting from " []; Panic "Bad drive type\n"], Halted m)
  else
    match try_boot_switch bootdev (type e) m with
    | (t, Returned None m') => (banner e ++ t, Returned tt m')
    | (t, Returned (Some (bootseg, bootip, bootdrv)) m') =>
        (banner e ++ t ++
           [Dprintf 1 "Booting from %x:%x\n" [AInt bootseg; AInt bootip];
            Call16 (boot_frame bootseg bootip bootdrv)],
         finish (boot_frame bootseg bootip bootdrv) m')
    | (t, Halted m') => (banner e ++ t, Halted m')
    | (t, Departed) => (banner e ++ t, Departed)
    | (t, Exhausted m') => (banner e ++ t, Exhausted m')
    end.
Proof.
  intros Hb. unfold try_boot_load. rewrite (u16_small bootdev Hb).
  unfold bind at 1. rewrite print_boot_device_run.
  destruct (bad_drive_type (type (IPL_table m bootdev))); [reflexivity |].
  cbv zeta. unfold finish, do_call16. run_monad.
  destruct (try_boot_switch bootdev (type (IPL_table m bootdev)) m)
    as [t [[[[bootseg bootip] bootdrv] |] m' | m' | | m']];
    try reflexivity.
  - destruct (call16 (boot_frame bootseg bootip bootdrv) m'); reflexivity.
  - rewrite app_nil_r. reflexivity.
Qed.

(** *** The switch, one arm at a time *)

Lemma switch_disk (bootdev ty : Z) (m : machine) :
  ty = IPL_TYPE_FLOPPY \/ ty = IPL_TYPE_HARDDISK ->
  try_boot_switch bootdev ty m = try_boot_disk ty m.
Proof. intros [-> | ->]; reflexivity. Qed.

Lemma switch_cdrom (bootdev : Z) (m : machine) :
  try_boot_switch bootdev IPL_TYPE_CDROM m = try_boot_cdrom IPL_TYPE_CDROM m.
Proof. reflexivity. Qed.

Lemma switch_bev (bootdev : Z) (m : machine) :
  try_boot_switch bootdev IPL_TYPE_BEV m = try_boot_bev bootdev m.
Proof. reflexivity. Qed.

Lemma switch_default (bootdev ty : Z) (m : machine) :
  ty <> IPL_TYPE_FLOPPY -> ty <> IPL_TYPE_HARDDISK ->
  ty <> IPL_TYPE_CDROM -> ty <> IPL_TYPE_BEV ->
  try_boot_switch bootdev ty m = ([], Returned None m).
Proof.
  intros H1 H2 H3 H4. unfold try_boot_switch.
  destruct (Z.eqb_spec ty IPL_TYPE_FLOPPY); [contradiction |].
  destruct (Z.eqb_spec ty IPL_TYPE_HARDDISK); [contradiction |].
  destruct (Z.eqb_spec ty IPL_TYPE_CDROM); [contradiction |].
  destruct (Z.eqb_spec ty IPL_TYPE_BEV); [contradiction |].
  reflexivity.
Qed.

Lemma print_boot_failure_run (ty reason : Z) (m : machine) :
  ty = IPL_TYPE_FLOPPY \/ ty = IPL_TYPE_HARDDISK \/ ty = IPL_TYPE_CDROM ->
  print_boot_failure ty reason m =
  ([Printf "Boot failed" [];
    Printf (if reason =? 0 then ": not a bootable disk"
            else ": could not read the boot disk") [];
    Printf "\n\n" []], Returned tt m).
Proof.
  intros [-> | [-> | ->]]; unfold print_boot_failure; run_monad;
    cbn [Z.eqb Z.gtb Z.ltb Z.compare Pos.compare Pos.compare_cont orb
         IPL_TYPE_FLOPPY IPL_TYPE_HARDDISK IPL_TYPE_CDROM];
    destruct (reason =? 0); reflexivity.
Qed.

(** The floppy and hard-disk arm (boot.c 110-143). *)
Lemma try_boot_disk_run (ty : Z) (m : machine) :
  ty = IPL_TYPE_FLOPPY \/ ty = IPL_TYPE_HARDDISK ->
  let bootdrv := if ty =? IPL_TYPE_HARDDISK then 0x80 else 0x00 in
  let request := read_sector_request bootdrv 0x07c0 in
  let reply := fst (int13 request m) in
  let m1 := snd (int13 request m) in
  let sig := farvar16 m1 0x07c0 510 in
  try_boot_disk ty m =
  if negb (Z.land (flags reply) F_CF =? 0)
  then ([Int13 request reply; Printf "Boot failed" [];
         Printf ": could not read the boot disk" []; Printf "\n\n" []],
        Returned None m1)
  else if negb (ty =? IPL_TYPE_FLOPPY) || negb (checkfloppysig (IPL m1) =? 0)
  then
    if negb (sig =? MBR_SIGNATURE)
    then ([Int13 request reply; GetFarvar 0x07c0 510 sig; Printf "Boot failed" [];
           Printf ": not a bootable disk" []; Printf "\n\n" []],
          Returned None m1)
    else ([Int13 request reply; GetFarvar 0x07c0 510 sig],
          Returned (Some (0, 0x7c00, bootdrv)) m1)
  else ([Int13 request reply], Returned (Some (0, 0x7c00, bootdrv)) m1).
Proof.
  intros Hty. cbv zeta. unfold try_boot_disk, call16_int_13, GET_FARVAR.
  change (canonicalize 0x07c0) with (0, 0x7c00).
  change mbr_signature_offset with 510.
  unfold bind at 1.
  destruct (int13 _ m) as [reply m1]. cbn [fst snd].
  destruct (negb (Z.land (flags reply) F_CF =? 0)).
  - run_monad. rewrite print_boot_failure_run by tauto. reflexivity.
  - run_monad.
    destruct (negb (ty =? IPL_TYPE_FLOPPY) || negb (checkfloppysig (IPL m1) =? 0)).
    + destruct (negb (farvar16 m1 0x07c0 510 =? MBR_SIGNATURE)); run_monad.
      * rewrite print_boot_failure_run by tauto. reflexivity.
      * reflexivity.
    + reflexivity.
Qed.

(** The CD-ROM arm (boot.c 144-162). *)
Lemma try_boot_cdrom_run (m : machine) :
  let status := fst (cdrom_boot m) in
  let m1 := snd (cdrom_boot m) in
  let bootseg := cdemu_load_segment (ebda m1) in
  try_boot_cdrom IPL_TYPE_CDROM m =
  if negb CONFIG_CDROM_BOOT then ([], Returned None m)
  else if negb (status =? 0)
  then ([CdromBoot status; Printf "CDROM boot failure code : %04x\n" [AInt status];
         Printf "Boot failed" []; Printf ": could not read the boot disk" [];
         Printf "\n\n" []],
        Returned None m1)
  else ([CdromBoot status],
        Returned (Some (fst (canonicalize bootseg), snd (canonicalize bootseg),
                        cdemu_emulated_drive (ebda m1))) m1).
Proof.
  cbv zeta. unfold try_boot_cdrom, call_cdrom_boot.
  destruct (negb CONFIG_CDROM_BOOT); [reflexivity |].
  unfold bind at 1.
  destruct (cdrom_boot m) as [status m1]. cbn [fst snd].
  destruct (negb (status =? 0)).
  - run_monad. rewrite print_boot_failure_run by tauto. reflexivity.
  - unfold canonicalize. reflexivity.
Qed.

(** The expansion-ROM arm (boot.c 163-170). *)
Lemma try_boot_bev_run (bootdev : Z) (m : machine) :
  let v := vector (IPL_table m bootdev) in
  try_boot_bev bootdev m =
  ([], Returned (Some (u16 (Z.shiftr v 16), u16 (Z.land v 0xffff), 0)) m).
Proof. reflexivity. Qed.

(** *** Which entry an attempt reaches *)

Lemma dispatches_index (m : machine) (seq_nr idx : Z) :
  dispatches m seq_nr idx -> 0 <= idx < 15.
Proof.
  intros (_ & Hf & Hi).
  pose proof (bootorder_field_range (bootorder (IPL m)) seq_nr). lia.
Qed.

Lemma try_boot_dispatched (m : machine) (seq_nr idx : Z) :
  dispatches m seq_nr idx -> try_boot seq_nr m = try_boot_load idx m.
Proof.
  intros (Hc & Hf & Hi). rewrite (try_boot_run _ _ Hc). cbv zeta. rewrite Hf.
  destruct (Z.eqb_spec (idx + 1) 0); [lia |].
  replace (idx + 1 - 1) with idx by lia.
  destruct (Z.geb_spec idx (count (IPL m))); [lia | reflexivity].
Qed.

(** *** Facts about the banner: console text and nothing else *)

Ltac banner_fact e :=
  unfold banner; destruct (description e);
  [destruct ((if type e =? IPL_TYPE_BEV then 4 else type e) =? 4) |];
  reflexivity.

Lemma banner_no_transfer e : transfers (banner e) = false.
Proof. banner_fact e. Qed.
Lemma banner_no_failure e : reports_boot_failure (banner e) = false.
Proof. banner_fact e. Qed.
Lemma banner_no_reason e : says ": not a bootable disk" (banner e) = false.
Proof. banner_fact e. Qed.
Lemma banner_no_panic e : panics (banner e) = false.
Proof. banner_fact e. Qed.
Lemma banner_no_signature e : checks_signature (banner e) = false.
Proof. banner_fact e. Qed.
Lemma banner_no_device_io e : does_device_io (banner e) = false.
Proof. banner_fact e. Qed.
Lemma banner_no_counter_write e : counter_writes (banner e) = [].
Proof. banner_fact e. Qed.

Lemma counter_writes_app (t1 t2 : list event) :
  counter_writes (t1 ++ t2) = counter_writes t1 ++ counter_writes t2.
Proof.
  induction t1 as [| e t1 IH]; [reflexivity |].
  destruct e; cbn [app counter_writes]; rewrite IH; reflexivity.
Qed.

(** *** The switch only loads: it returns, and leaves the console, the
    disk, the sector and the CD-ROM as its only traces *)

Lemma try_boot_switch_returns (bootdev ty : Z) (m : machine) :
  exists t loaded m',
    try_boot_switch bootdev ty m = (t, Returned loaded m') /\
    forallb is_load_event t = true.
Proof.
  destruct (Z.eq_dec ty IPL_TYPE_FLOPPY) as [H1 | H1];
    [| destruct (Z.eq_dec ty IPL_TYPE_HARDDISK) as [H2 | H2]].
  1, 2: rewrite switch_disk by tauto;
        rewrite try_boot_disk_run by tauto; cbv zeta;
        repeat case_if; eauto.
  destruct (Z.eq_dec ty IPL_TYPE_CDROM) as [-> | H3].
  { rewrite switch_cdrom, try_boot_cdrom_run. cbv zeta. repeat case_if; eauto. }
  destruct (Z.eq_dec ty IPL_TYPE_BEV) as [-> | H4].
  { rewrite switch_bev, try_boot_bev_run. cbv zeta. eauto. }
  rewrite switch_default by assumption. eauto.
Qed.

Lemma load_event_not_call16 (t : list event) :
  forallb is_load_event t = true -> transfers t = false.
Proof.
  induction t as [| e t IH]; [reflexivity |].
  cbn [forallb]. intros H. apply andb_prop in H as [He Ht].
  unfold transfers. cbn [existsb]. fold (transfers t). rewrite (IH Ht).
  destruct e; try discriminate He; reflexivity.
Qed.

Lemma load_event_not_panic (t : list event) :
  forallb is_load_event t = true -> panics t = false.
Proof.
  induction t as [| e t IH]; [reflexivity |].
  cbn [forallb]. intros H. apply andb_prop in H as [He Ht].
  unfold panics. cbn [existsb]. fold (panics t). rewrite (IH Ht).
  destruct e; try discriminate He; reflexivity.
Qed.

Lemma load_event_not_counter_write (t : list event) :
  forallb is_load_event t = true -> counter_writes t = [].
Proof.
  induction t as [| e t IH]; [reflexivity |].
  cbn [forallb]. intros H. apply andb_prop in H as [He Ht].
  destruct e; try discriminate He; cbn [counter_writes]; exact (IH Ht).
Qed.

(** *** The ways one call of try_boot can go *)

Lemma try_boot_attempt (seq_nr : Z) (m : machine) :
  attempt m seq_nr (trace_of (try_boot seq_nr) m) (result_of (try_boot seq_nr) m).
Proof.
  unfold trace_of, result_of.
  destruct CONFIG_BOOT eqn:Hc.
  2: { rewrite try_boot_unconfigured by assumption. apply Unconfigured, Hc. }
  pose proof (bootorder_field_range (bootorder (IPL m)) seq_nr) as Hr.
  destruct (Z.eq_dec (bootorder_field (bootorder (IPL m)) seq_nr) 0) as [Hf | Hf].
  { rewrite try_boot_run by assumption. cbv zeta. rewrite Hf.
    apply NoBootableDevice; assumption. }
  set (idx := bootorder_field (bootorder (IPL m)) seq_nr - 1).
  assert (Hi : bootorder_field (bootorder (IPL m)) seq_nr = idx + 1) by (subst idx; lia).
  destruct (Z_lt_ge_dec idx (count (IPL m))) as [Hlt | Hge].
  2: { rewrite try_boot_run by assumption. cbv zeta. fold idx.
       destruct (Z.eqb_spec (bootorder_field (bootorder (IPL m)) seq_nr) 0); [lia |].
       destruct (Z.geb_spec idx (count (IPL m))); [| lia].
       apply InvalidBootDevice; try assumption; lia. }
  assert (Hd : dispatches m seq_nr idx) by (repeat split; try assumption; lia).
  rewrite (try_boot_dispatched _ _ _ Hd).
  rewrite try_boot_load_run by lia. cbv zeta.
  destruct (bad_drive_type (type (IPL_table m idx))) eqn:Hbad.
  { apply BadDriveType with (idx := idx); assumption. }
  destruct (try_boot_switch_returns idx (type (IPL_table m idx)) m)
    as (t & loaded & m' & Hsw & Ht).
  rewrite Hsw. destruct loaded as [[[bootseg bootip] bootdrv] |]; cbn [fst snd].
  - apply Loaded with (idx := idx); assumption.
  - apply NotLoaded with (idx := idx); assumption.
Qed.

(** Case analysis on how [try_boot seq_nr m] went. *)
Ltac attempt_cases seq_nr m :=
  let A := fresh "A" in
  let tr := fresh "tr" in
  let res := fresh "res" in
  pose proof (try_boot_attempt seq_nr m) as A;
  remember (trace_of (try_boot seq_nr) m) as tr;
  remember (result_of (try_boot seq_nr) m) as res;
  destruct A.

(** What the switch answers when it breaks, arm by arm. *)
Lemma try_boot_switch_loaded (bootdev ty : Z) (m m' : machine) t bootseg bootip bootdrv :
  try_boot_switch bootdev ty m = (t, Returned (Some (bootseg, bootip, bootdrv)) m') ->
  (ty = IPL_TYPE_FLOPPY /\ bootseg = 0 /\ bootip = 0x7c00 /\ bootdrv = 0x00) \/
  (ty = IPL_TYPE_HARDDISK /\ bootseg = 0 /\ bootip = 0x7c00 /\ bootdrv = 0x80) \/
  (ty = IPL_TYPE_CDROM /\ m' = snd (cdrom_boot m) /\
   (bootseg, bootip) = canonicalize (cdemu_load_segment (ebda m')) /\
   bootdrv = cdemu_emulated_drive (ebda m')) \/
  (ty = IPL_TYPE_BEV /\ m' = m /\ t = [] /\
   bootseg = u16 (Z.shiftr (vector (IPL_table m bootdev)) 16) /\
   bootip = u16 (Z.land (vector (IPL_table m bootdev)) 0xffff) /\
   bootdrv = 0).
Proof.
  destruct (Z.eq_dec ty IPL_TYPE_FLOPPY) as [H1 | H1];
    [| destruct (Z.eq_dec ty IPL_TYPE_HARDDISK) as [H2 | H2]].
  1, 2: rewrite switch_disk by tauto;
        rewrite try_boot_disk_run by tauto; cbv zeta; subst ty;
        change (IPL_TYPE_FLOPPY =? IPL_TYPE_HARDDISK) with false;
        change (IPL_TYPE_HARDDISK =? IPL_TYPE_HARDDISK) with true;
        cbv iota;
        repeat case_if; intros H; inversion H; tauto.
  destruct (Z.eq_dec ty IPL_TYPE_CDROM) as [-> | H3].
  { rewrite switch_cdrom, try_boot_cdrom_run. cbv zeta.
    repeat case_if; intros H; inversion H; subst.
    right. right. left. repeat split. }
  destruct (Z.eq_dec ty IPL_TYPE_BEV) as [-> | H4].
  { rewrite switch_bev, try_boot_bev_run. cbv zeta. intros H; inversion H; subst.
    right. right. right. repeat split. }
  rewrite switch_default by assumption. intros H; inversion H.
Qed.

(** *** Trace bookkeeping *)

Lemma not_in_when_none (f : event -> bool) (t : list event) (e : event) :
  existsb f t = false -> f e = true -> ~ In e t.
Proof.
  intros Hnone He Hin.
  assert (H : existsb f t = true) by (apply existsb_exists; exists e; tauto).
  congruence.
Qed.

(** ** The boot order codec *)

(** C7: for an attempt index in [0,7] the resolve step of try_boot
    (boot.c 85-93) extracts exactly the 4-bit field in bits
    [4*attempt, 4*attempt+4) of the boot order, a function of the order and
    the attempt index alone; when the field is not zero, field - 1 is the
    table index try_boot goes on with, on the machine it was given. *)
Theorem resolve_extracts_field (order attempt_nr : Z) (m : machine) :
  0 <= attempt_nr <= 7 ->
  let field := (order / 2 ^ (4 * attempt_nr)) mod 16 in
  bootorder_field order attempt_nr = field /\
  (forall i, 0 <= i < 4 -> Z.testbit field i = Z.testbit order (4 * attempt_nr + i)) /\
  (forall i, 4 <= i -> Z.testbit field i = false) /\
  (CONFIG_BOOT = true -> bootorder (IPL m) = order -> field <> 0 ->
   try_boot attempt_nr m =
   if field - 1 >=? count (IPL m)
   then ([Dprintf 1 "Invalid boot device (0x%x)\n" [AInt (field - 1)]], Returned tt m)
   else try_boot_load (field - 1) m).
Proof.
  intros Ha field.
  assert (Hf : bootorder_field order attempt_nr = field).
  { unfold bootorder_field, shr32, field.
    destruct (Z.ltb_spec (4 * attempt_nr) 32); [| lia].
    change 0xf with (Z.ones 4). rewrite Z.land_ones by lia.
    rewrite Z.shiftr_div_pow2 by lia. reflexivity. }
  split; [exact Hf |]. split; [| split].
  - intros i Hi. unfold field. change 16 with (2 ^ 4).
    rewrite Z.mod_pow2_bits_low by lia.
    rewrite <- Z.shiftr_div_pow2 by lia.
    rewrite Z.shiftr_spec by lia. f_equal. lia.
  - intros i Hi. unfold field. change 16 with (2 ^ 4).
    apply Z.mod_pow2_bits_high. lia.
  - intros Hc Ho Hnz. rewrite (try_boot_run _ _ Hc). cbv zeta.
    rewrite Ho, Hf.
    destruct (Z.eqb_spec field 0); [contradiction | reflexivity].
Qed.

(** C2: the resolve step fails with "No bootable device" exactly when the
    4-bit field it extracted is 0, and the failure is the panic: try_boot
    halts there, and do_boot with it, before the recovery interrupt. *)
Theorem no_bootable_device_iff_field_zero (seq_nr : Z) (m : machine) :
  CONFIG_BOOT = true ->
  let field := bootorder_field (bootorder (IPL m)) seq_nr in
  (In (Panic "No bootable device.\n") (trace_of (try_boot seq_nr) m) <-> field = 0) /\
  (field = 0 ->
   try_boot seq_nr m = ([Panic "No bootable device.\n"], Halted m) /\
   forall int18 : M unit,
     do_boot int18 seq_nr m = ([Panic "No bootable device.\n"], Halted m)).
Proof.
  intros Hc field.
  assert (Hz : field = 0 -> try_boot seq_nr m = ([Panic "No bootable device.\n"], Halted m)).
  { intros Hf. rewrite (try_boot_run _ _ Hc). cbv zeta. fold field. rewrite Hf. reflexivity. }
  split; [split |].
  - intros Hin. attempt_cases seq_nr m.
    + congruence.
    + assumption.
    + destruct Hin as [Hin | []]. discriminate Hin.
    + destruct Hin as [Hin | [Hin | []]]; discriminate Hin.
    + exfalso. revert Hin. apply not_in_when_none with (f := is_panic); [| reflexivity].
      rewrite existsb_app. fold (panics (banner (IPL_table m idx))) (panics t).
      rewrite banner_no_panic, load_event_not_panic by assumption. reflexivity.
    + exfalso. revert Hin. apply not_in_when_none with (f := is_panic); [| reflexivity].
      rewrite !existsb_app.
      fold (panics (banner (IPL_table m idx))) (panics t).
      rewrite banner_no_panic, load_event_not_panic by assumption. reflexivity.
  - intros Hf. unfold trace_of. rewrite (Hz Hf). left. reflexivity.
  - intros Hf. split; [exact (Hz Hf) |].
    intros int18. unfold do_boot. apply bind_halted. exact (Hz Hf).
Qed.

(** C6: when the order resolves an attempt to an index at or beyond count,
    try_boot writes one line to the debug channel and returns on the machine
    it was given: no control transfer, nothing on the console, and no
    panic, unlike the "No bootable device" case. *)
Theorem index_beyond_count_is_only_diagnosed (seq_nr idx : Z) (m : machine) :
  CONFIG_BOOT = true ->
  bootorder_field (bootorder (IPL m)) seq_nr = idx + 1 ->
  0 <= idx ->
  count (IPL m) <= idx ->
  try_boot seq_nr m =
    ([Dprintf 1 "Invalid boot device (0x%x)\n" [AInt idx]], Returned tt m) /\
  transfers (trace_of (try_boot seq_nr) m) = false /\
  prints (trace_of (try_boot seq_nr) m) = false /\
  panics (trace_of (try_boot seq_nr) m) = false /\
  result_of (try_boot seq_nr) m <> Halted m.
Proof.
  intros Hc Hf H0 Hi.
  assert (E : try_boot seq_nr m =
              ([Dprintf 1 "Invalid boot device (0x%x)\n" [AInt idx]], Returned tt m)).
  { rewrite (try_boot_run _ _ Hc). cbv zeta. rewrite Hf.
    destruct (Z.eqb_spec (idx + 1) 0); [lia |].
    replace (idx + 1 - 1) with idx by lia.
    destruct (Z.geb_spec idx (count (IPL m))); [reflexivity | lia]. }
  unfold trace_of, result_of. rewrite E. cbn [fst snd].
  repeat split. discriminate.
Qed.

(** ** Control transfer *)

Lemma u16_range (x : Z) : 0 <= u16 x < 2 ^ 16.
Proof. unfold u16. apply Z.mod_pos_bound. lia. Qed.

Lemma u8_land (x : Z) : Z.land x 0xff = u8 x.
Proof. unfold u8. change 0xff with (Z.ones 8). apply Z.land_ones. lia. Qed.

Lemma u8_range (x : Z) : 0 <= u8 x < 2 ^ 8.
Proof. unfold u8. apply Z.mod_pos_bound. lia. Qed.

(** The request of boot.c 117-122: read (ah = 2) one sector (al = 1),
    sector 1 (cl = 1), of drive dl to es:0000. *)
Lemma read_sector_request_slots (bootdrv bootseg : Z) :
  let cr := read_sector_request bootdrv bootseg in
  ah cr = 2 /\ al cr = 1 /\ cl cr = 1 /\ dl cr = u8 bootdrv /\ es cr = u16 bootseg /\
  flags cr = 0.
Proof.
  cbv zeta. unfold read_sector_request, set_cl, set_al, set_ah, set_es, set_dl,
    bregs_zero, ah, al, cl, dl.
  cbn [eax ecx edx es flags].
  repeat split; try reflexivity.
  unfold with_low8. rewrite Z.land_0_l, Z.lor_0_l, !u8_land.
  unfold u8. apply Z.mod_mod. lia.
Qed.

(** The frame of boot.c 178-183, slot by slot. *)
Lemma boot_frame_slots (bootseg bootip bootdrv : Z) :
  let frame := boot_frame bootseg bootip bootdrv in
  ip frame = u16 bootip /\ cs frame = u16 bootseg /\
  edx frame = u8 bootdrv /\ eax frame = 0xaa55 /\
  ds frame = 0 /\ es frame = 0 /\ edi frame = 0 /\ esi frame = 0 /\
  ebp frame = 0 /\ ebx frame = 0 /\ ecx frame = 0 /\ flags frame = 0.
Proof.
  cbv zeta. unfold boot_frame, set_ax, set_dl, set_cs, set_ip, bregs_zero.
  cbn [ip cs edx eax ds es edi esi ebp ebx ecx flags].
  unfold with_low8. rewrite Z.land_0_l, Z.lor_0_l, u8_land.
  repeat split.
Qed.

Lemma boot_frame_dl (bootseg bootip bootdrv : Z) :
  dl (boot_frame bootseg bootip bootdrv) = u8 bootdrv.
Proof.
  unfold dl.
  destruct (boot_frame_slots bootseg bootip bootdrv) as (_ & _ & -> & _).
  rewrite u8_land. unfold u8. apply Z.mod_mod. lia.
Qed.

Lemma boot_frame_ax (bootseg bootip bootdrv : Z) :
  ax (boot_frame bootseg bootip bootdrv) = 0xaa55.
Proof. reflexivity. Qed.

(** The only call16 of try_boot is the last event of a loaded attempt. *)
Lemma try_boot_call16 (seq_nr : Z) (m : machine) (frame : bregs) :
  In (Call16 frame) (trace_of (try_boot seq_nr) m) ->
  exists idx t m' bootseg bootip bootdrv,
    dispatches m seq_nr idx /\
    try_boot_switch idx (type (IPL_table m idx)) m =
      (t, Returned (Some (bootseg, bootip, bootdrv)) m') /\
    frame = boot_frame bootseg bootip bootdrv.
Proof.
  intros Hin. attempt_cases seq_nr m.
  - destruct Hin as [Hin | []]. discriminate Hin.
  - destruct Hin as [Hin | []]. discriminate Hin.
  - destruct Hin as [Hin | []]. discriminate Hin.
  - destruct Hin as [Hin | [Hin | []]]; discriminate Hin.
  - exfalso. revert Hin. apply not_in_when_none with (f := is_call16); [| reflexivity].
    rewrite existsb_app. fold (transfers (banner (IPL_table m idx))) (transfers t).
    rewrite banner_no_transfer, load_event_not_call16 by assumption. reflexivity.
  - apply in_app_or in Hin as [Hin | Hin].
    { exfalso. revert Hin. apply not_in_when_none with (f := is_call16); [| reflexivity].
      apply banner_no_transfer. }
    apply in_app_or in Hin as [Hin | Hin].
    { exfalso. revert Hin. apply not_in_when_none with (f := is_call16); [| reflexivity].
      apply load_event_not_call16. assumption. }
    destruct Hin as [Hin | [Hin | []]]; [discriminate Hin |].
    injection Hin as <-. eauto 10.
Qed.

Lemma dispatches_unique (m : machine) (seq_nr i j : Z) :
  dispatches m seq_nr i -> dispatches m seq_nr j -> i = j.
Proof. intros (_ & Hi & _) (_ & Hj & _). lia. Qed.

(** C9: whenever try_boot hands control over, the frame carries the
    target's offset in ip and its segment in cs, the drive in dl (0x00 for a
    floppy, 0x80 for a hard disk, the emulated drive for a CD-ROM, 0 for a
    BEV entry) and the magic value 0xaa55 in ax. *)
Theorem control_transfer_frame (seq_nr : Z) (m : machine) (frame : bregs) :
  In (Call16 frame) (trace_of (try_boot seq_nr) m) ->
  exists idx,
    dispatches m seq_nr idx /\
    ax frame = 0xaa55 /\
    let e := IPL_table m idx in
    (type e = IPL_TYPE_FLOPPY /\
       dl frame = 0x00 /\ cs frame = 0x0000 /\ ip frame = 0x7c00) \/
    (type e = IPL_TYPE_HARDDISK /\
       dl frame = 0x80 /\ cs frame = 0x0000 /\ ip frame = 0x7c00) \/
    (type e = IPL_TYPE_CDROM /\
       let m1 := snd (cdrom_boot m) in
       dl frame = u8 (cdemu_emulated_drive (ebda m1)) /\
       cs frame = fst (canonicalize (cdemu_load_segment (ebda m1))) /\
       ip frame = snd (canonicalize (cdemu_load_segment (ebda m1)))) \/
    (type e = IPL_TYPE_BEV /\
       dl frame = 0 /\
       cs frame = u16 (Z.shiftr (vector e) 16) /\
       ip frame = u16 (Z.land (vector e) 0xffff)).
Proof.
  intros Hin.
  destruct (try_boot_call16 _ _ _ Hin)
    as (idx & t & m' & bootseg & bootip & bootdrv & Hd & Hsw & ->).
  exists idx. split; [exact Hd |]. split; [apply boot_frame_ax |].
  cbv zeta. rewrite boot_frame_dl.
  destruct (boot_frame_slots bootseg bootip bootdrv) as (-> & -> & _).
  apply try_boot_switch_loaded in Hsw
    as [(Hty & -> & -> & ->) | [(Hty & -> & -> & ->)
       | [(Hty & -> & Hcan & ->) | (Hty & -> & -> & -> & -> & ->)]]].
  - left. repeat split; assumption.
  - right. left. repeat split; assumption.
  - right. right. left. split; [assumption |]. split; [reflexivity |].
    rewrite <- Hcan. cbn [fst snd].
    injection Hcan as -> ->. split.
    + apply u16_small, land_0xf000_range.
    + apply u16_small, u16_range.
  - right. right. right. split; [assumption |]. split; [reflexivity |].
    split; apply u16_small, u16_range.
Qed.

(** C10: in the frame of the final call every slot but ip, cs, dl and ax is
    zero (edx holds nothing but dl, eax nothing but ax), and a floppy or
    hard-disk boot enters at 0x0000:0x7c00, the canonical form of the load
    segment 0x07c0. *)
Theorem control_transfer_frame_rest_zero (seq_nr : Z) (m : machine) (frame : bregs) :
  In (Call16 frame) (trace_of (try_boot seq_nr) m) ->
  ds frame = 0 /\ es frame = 0 /\ edi frame = 0 /\ esi frame = 0 /\
  ebp frame = 0 /\ ebx frame = 0 /\ ecx frame = 0 /\ flags frame = 0 /\
  edx frame = dl frame /\ dh frame = 0 /\ eax frame = ax frame /\
  canonicalize 0x07c0 = (0x0000, 0x7c00) /\
  (forall idx,
     dispatches m seq_nr idx ->
     type (IPL_table m idx) = IPL_TYPE_FLOPPY \/
     type (IPL_table m idx) = IPL_TYPE_HARDDISK ->
     cs frame = 0x0000 /\ ip frame = 0x7c00).
Proof.
  intros Hin.
  destruct (try_boot_call16 _ _ _ Hin)
    as (idx & t & m' & bootseg & bootip & bootdrv & Hd & Hsw & ->).
  pose proof (boot_frame_dl bootseg bootip bootdrv) as Hdl.
  pose proof (boot_frame_ax bootseg bootip bootdrv) as Hax.
  unfold dh.
  destruct (boot_frame_slots bootseg bootip bootdrv)
    as (Hip & Hcs & Hedx & Heax & -> & -> & -> & -> & -> & -> & -> & ->).
  rewrite Hedx, Heax, Hdl, Hax, Hip, Hcs.
  assert (Hdh : Z.land (Z.shiftr (u8 bootdrv) 8) 0xff = 0).
  { pose proof (u8_range bootdrv) as Hr.
    rewrite Z.shiftr_div_pow2 by lia. rewrite Z.div_small by lia. reflexivity. }
  repeat (split; [reflexivity || exact Hdh |]).
  intros idx' Hd' Hty'. rewrite (dispatches_unique _ _ _ _ Hd' Hd) in Hty'.
  apply try_boot_switch_loaded in Hsw
    as [(Hty & -> & -> & _) | [(Hty & -> & -> & _) | [(Hty & _) | (Hty & _)]]].
  - split; reflexivity.
  - split; reflexivity.
  - rewrite Hty in Hty'. destruct Hty' as [Hty' | Hty']; discriminate Hty'.
  - rewrite Hty in Hty'. destruct Hty' as [Hty' | Hty']; discriminate Hty'.
Qed.

(** ** The device loader *)

Lemma transfers_app t1 t2 : transfers (t1 ++ t2) = transfers t1 || transfers t2.
Proof. apply existsb_app. Qed.
Lemma says_app fmt t1 t2 : says fmt (t1 ++ t2) = says fmt t1 || says fmt t2.
Proof. apply existsb_app. Qed.
Lemma reports_boot_failure_app t1 t2 :
  reports_boot_failure (t1 ++ t2) = reports_boot_failure t1 || reports_boot_failure t2.
Proof. apply existsb_app. Qed.
Lemma checks_signature_app t1 t2 :
  checks_signature (t1 ++ t2) = checks_signature t1 || checks_signature t2.
Proof. apply existsb_app. Qed.
Lemma does_device_io_app t1 t2 :
  does_device_io (t1 ++ t2) = does_device_io t1 || does_device_io t2.
Proof. apply existsb_app. Qed.
Lemma panics_app t1 t2 : panics (t1 ++ t2) = panics t1 || panics t2.
Proof. apply existsb_app. Qed.

(** Splits the trace predicates over [++] and drops the banner. *)
Ltac trace_simpl :=
  rewrite ?transfers_app, ?says_app, ?reports_boot_failure_app,
    ?checks_signature_app, ?does_device_io_app, ?panics_app,
    ?banner_no_transfer, ?banner_no_failure, ?banner_no_reason,
    ?banner_no_panic, ?banner_no_signature, ?banner_no_device_io;
  cbn [orb].

(** C8: a BEV entry is entered at the address in its 32-bit vector,
    segment = high 16 bits and offset = low 16 bits (0x12340056 gives
    0x1234:0x0056); the attempt touches neither disk nor CD-ROM nor the
    sector in memory, and dl is 0 in the frame. *)
Theorem bev_entry_jumps_to_its_vector (seq_nr idx : Z) (m : machine) :
  dispatches m seq_nr idx ->
  type (IPL_table m idx) = IPL_TYPE_BEV ->
  0 <= vector (IPL_table m idx) < 2 ^ 32 ->
  let e := IPL_table m idx in
  let bootseg := Z.shiftr (vector e) 16 in
  let bootip := Z.land (vector e) 0xffff in
  let frame := boot_frame bootseg bootip 0 in
  try_boot seq_nr m =
    (banner e ++
       [Dprintf 1 "Booting from %x:%x\n" [AInt bootseg; AInt bootip]; Call16 frame],
     finish frame m) /\
  cs frame = bootseg /\ ip frame = bootip /\ dl frame = 0 /\
  does_device_io (trace_of (try_boot seq_nr) m) = false /\
  (vector e = 0x12340056 -> cs frame = 0x1234 /\ ip frame = 0x0056).
Proof.
  intros Hd Hty Hv e bootseg bootip frame.
  pose proof (dispatches_index _ _ _ Hd) as Hi.
  fold e in Hv, Hty.
  assert (Hseg : u16 bootseg = bootseg).
  { apply u16_small. unfold bootseg. rewrite Z.shiftr_div_pow2 by lia.
    change (2 ^ 32) with (2 ^ 16 * 2 ^ 16) in Hv.
    split; [apply Z.div_pos; lia |].
    apply Z.div_lt_upper_bound; [lia | exact (proj2 Hv)]. }
  assert (Hip : u16 bootip = bootip).
  { apply u16_small. unfold bootip. change 0xffff with (Z.ones 16).
    rewrite Z.land_ones by lia. apply Z.mod_pos_bound. lia. }
  assert (E : try_boot seq_nr m =
              (banner e ++
                 [Dprintf 1 "Booting from %x:%x\n" [AInt bootseg; AInt bootip];
                  Call16 frame], finish frame m)).
  { rewrite (try_boot_dispatched _ _ _ Hd). rewrite try_boot_load_run by lia.
    cbv zeta. fold e. rewrite Hty. change (bad_drive_type IPL_TYPE_BEV) with false.
    cbv iota. rewrite switch_bev, try_boot_bev_run. cbv zeta. fold e.
    fold bootseg bootip. rewrite Hseg, Hip. reflexivity. }
  destruct (boot_frame_slots bootseg bootip 0) as (Fip & Fcs & _).
  fold frame in Fip, Fcs.
  assert (Fdl : dl frame = 0) by (unfold frame; rewrite boot_frame_dl; reflexivity).
  split; [exact E |]. split; [congruence |]. split; [congruence |].
  split; [exact Fdl |]. split.
  - unfold trace_of. rewrite E. cbn [fst]. trace_simpl. reflexivity.
  - intros Hvec. rewrite Fcs, Fip, Hseg, Hip. unfold bootseg, bootip.
    rewrite Hvec. split; reflexivity.
Qed.

Lemma try_boot_disk_read_ok (seq_nr idx : Z) (m : machine) :
  dispatches m seq_nr idx ->
  type (IPL_table m idx) = IPL_TYPE_HARDDISK \/
  type (IPL_table m idx) = IPL_TYPE_FLOPPY ->
  read_ok (type (IPL_table m idx)) m ->
  let ty := type (IPL_table m idx) in
  let e := IPL_table m idx in
  let reply := fst (sector_read ty m) in
  let m1 := snd (sector_read ty m) in
  let sig := loaded_signature ty m in
  let bootdrv := if ty =? IPL_TYPE_HARDDISK then 0x80 else 0x00 in
  let request := read_sector_request bootdrv 0x07c0 in
  let jump :=
    [Dprintf 1 "Booting from %x:%x\n" [AInt 0; AInt 0x7c00];
     Call16 (boot_frame 0 0x7c00 bootdrv)] in
  try_boot seq_nr m =
  if negb (ty =? IPL_TYPE_FLOPPY) || negb (checkfloppysig (IPL m1) =? 0)
  then
    if negb (sig =? MBR_SIGNATURE)
    then (banner e ++
            [Int13 request reply; GetFarvar 0x07c0 510 sig; Printf "Boot failed" [];
             Printf ": not a bootable disk" []; Printf "\n\n" []],
          Returned tt m1)
    else (banner e ++ [Int13 request reply; GetFarvar 0x07c0 510 sig] ++ jump,
          finish (boot_frame 0 0x7c00 bootdrv) m1)
  else (banner e ++ [Int13 request reply] ++ jump,
        finish (boot_frame 0 0x7c00 bootdrv) m1).
Proof.
  intros Hd Hty Hok. cbv zeta.
  pose proof (dispatches_index _ _ _ Hd) as Hi.
  rewrite (try_boot_dispatched _ _ _ Hd). rewrite try_boot_load_run by lia.
  cbv zeta.
  assert (Hbad : bad_drive_type (type (IPL_table m idx)) = false)
    by (destruct Hty as [-> | ->]; reflexivity).
  rewrite Hbad. rewrite switch_disk by tauto. rewrite try_boot_disk_run by tauto.
  cbv zeta. unfold read_ok, sector_read in Hok. rewrite Hok.
  unfold loaded_signature, sector_read. cbn [negb Z.eqb].
  repeat case_if; reflexivity.
Qed.

(** C4: after a successful read of the first sector, a hard disk always has
    the trailing signature compared with 0xaa55, a floppy exactly when
    checkfloppysig is set, and a mismatch ends the attempt with "Boot
    failed: not a bootable disk" and no control transfer; CD-ROM and BEV
    entries never have the signature looked at. *)
Theorem signature_validation_policy (seq_nr idx : Z) (m : machine) :
  dispatches m seq_nr idx ->
  let ty := type (IPL_table m idx) in
  let t := trace_of (try_boot seq_nr) m in
  (ty = IPL_TYPE_HARDDISK \/ ty = IPL_TYPE_FLOPPY ->
   read_ok ty m ->
   let m1 := snd (sector_read ty m) in
   let sig := loaded_signature ty m in
   (checks_signature t = true <->
    ty = IPL_TYPE_HARDDISK \/ checkfloppysig (IPL m1) <> 0) /\
   (checks_signature t = true ->
    In (GetFarvar 0x07c0 510 sig) t /\
    (sig <> MBR_SIGNATURE ->
     transfers t = false /\ reports_boot_failure t = true /\
     says ": not a bootable disk" t = true /\
     result_of (try_boot seq_nr) m = Returned tt m1) /\
    (sig = MBR_SIGNATURE ->
     transfers t = true /\ reports_boot_failure t = false)) /\
   (checks_signature t = false ->
    transfers t = true /\ reports_boot_failure t = false)) /\
  (ty = IPL_TYPE_CDROM \/ ty = IPL_TYPE_BEV -> checks_signature t = false).
Proof.
  intros Hd ty t. pose proof (dispatches_index _ _ _ Hd) as Hi. split.
  - intros Hty Hok m1 sig.
    pose proof (try_boot_disk_read_ok _ _ _ Hd Hty Hok) as E. cbv zeta in E.
    fold ty m1 sig in E.
    assert (Hchk : negb (ty =? IPL_TYPE_FLOPPY) || negb (checkfloppysig (IPL m1) =? 0) = true
                   <-> ty = IPL_TYPE_HARDDISK \/ checkfloppysig (IPL m1) <> 0).
    { destruct (Z.eqb_spec (checkfloppysig (IPL m1)) 0) as [Hz | Hz];
        destruct Hty as [Hty | Hty]; rewrite Hty; cbn; split; intros H;
        try tauto; try discriminate H.
      destruct H as [H | H]; [discriminate H | contradiction]. }
    unfold t, trace_of, result_of. rewrite E. clear E.
    destruct (negb (ty =? IPL_TYPE_FLOPPY) || negb (checkfloppysig (IPL m1) =? 0)).
    + destruct (Z.eqb_spec sig MBR_SIGNATURE) as [Hs | Hs]; cbn [negb fst snd];
        trace_simpl.
      * split; [split; [intros _; apply Hchk; reflexivity | reflexivity] |].
        split; [| intros H; discriminate H].
        intros _. split; [apply in_or_app; right; right; left; reflexivity |].
        split; [intros H; contradiction |]. intros _. split; reflexivity.
      * split; [split; [intros _; apply Hchk; reflexivity | reflexivity] |].
        split; [| intros H; discriminate H].
        intros _. split; [apply in_or_app; right; right; left; reflexivity |].
        split; [| intros H; contradiction]. intros _. repeat split.
    + cbn [fst snd]. trace_simpl.
      split; [split; [intros H; discriminate H |] |].
      { intros H. apply Hchk in H. discriminate H. }
      split; [intros H; discriminate H |]. intros _. split; reflexivity.
  - intros Hty. unfold t, trace_of.
    rewrite (try_boot_dispatched _ _ _ Hd). rewrite try_boot_load_run by lia.
    cbv zeta. fold ty.
    destruct Hty as [Hty | Hty]; rewrite Hty.
    + change (bad_drive_type IPL_TYPE_CDROM) with false. cbv iota.
      rewrite switch_cdrom, try_boot_cdrom_run. cbv zeta.
      repeat case_if; cbn [fst]; trace_simpl; reflexivity.
    + change (bad_drive_type IPL_TYPE_BEV) with false. cbv iota.
      rewrite switch_bev, try_boot_bev_run. cbv zeta.
      cbn [fst]; trace_simpl; reflexivity.
Qed.

(** C5, as the code has it: an entry whose type is 0, or above 4 and not the
    BEV type 0x80, stops try_boot in printf_bootdev's "Bad drive type"
    panic, after "Booting from " and before any load.  The silent skip, a
    return with no control transfer and no "Boot failed" on the console, is
    what happens to type 4, which printf_bootdev accepts and the switch
    does not know. *)
Theorem unhandled_type_outcome (seq_nr idx : Z) (m : machine) :
  dispatches m seq_nr idx ->
  let e := IPL_table m idx in
  (type e = 0 \/ (4 < type e /\ type e <> IPL_TYPE_BEV) ->
   try_boot seq_nr m =
     ([Printf "Booting from " []; Panic "Bad drive type\n"], Halted m)) /\
  (type e = 4 ->
   try_boot seq_nr m = (banner e, Returned tt m) /\
   transfers (banner e) = false /\
   reports_boot_failure (banner e) = false /\
   panics (banner e) = false /\
   does_device_io (banner e) = false).
Proof.
  intros Hd e. pose proof (dispatches_index _ _ _ Hd) as Hi.
  rewrite (try_boot_dispatched _ _ _ Hd). rewrite try_boot_load_run by lia.
  cbv zeta. fold e. split.
  - intros Hty.
    assert (Hbad : bad_drive_type (type e) = true).
    { unfold bad_drive_type.
      destruct Hty as [-> | [Hgt Hne]]; [reflexivity |].
      destruct (Z.eqb_spec (type e) IPL_TYPE_BEV); [contradiction |].
      destruct (Z.gtb_spec (type e) 4); [apply orb_true_r | lia]. }
    rewrite Hbad. reflexivity.
  - intros Hty. rewrite Hty. change (bad_drive_type 4) with false. cbv iota.
    rewrite switch_default by discriminate.
    rewrite app_nil_r.
    repeat split; auto using banner_no_transfer, banner_no_failure,
      banner_no_panic, banner_no_device_io.
Qed.

(** ** The entry points and the boot-sequence counter *)

Lemma try_boot_writes_nothing (seq_nr : Z) (m : machine) :
  counter_writes (trace_of (try_boot seq_nr) m) = [].
Proof.
  attempt_cases seq_nr m; try reflexivity;
    rewrite ?counter_writes_app, banner_no_counter_write,
      load_event_not_counter_write by assumption;
    reflexivity.
Qed.

Lemma handle_18_run (fuel : nat) (m : machine) :
  let c := boot_sequence (ebda m) in
  let seq := u16 (c + 1) in
  handle_18 (S fuel) m =
  ([DebugSerialSetup; DebugEnter "handle_18"; SetBootSequence c seq]
     ++ trace_of (do_boot (handle_18 fuel) seq) (set_boot_sequence seq m),
   result_of (do_boot (handle_18 fuel) seq) (set_boot_sequence seq m)).
Proof.
  cbv zeta. cbn [handle_18]. unfold SET_EBDA_boot_sequence. run_monad.
  destruct (do_boot _ _ _). reflexivity.
Qed.

Lemma handle_19_run (fuel : nat) (m : machine) :
  let c := boot_sequence (ebda m) in
  handle_19 fuel m =
  ([DebugSerialSetup; DebugEnter "handle_19"; SetBootSequence c 0]
     ++ trace_of (do_boot (handle_18 fuel) 0) (set_boot_sequence 0 m),
   result_of (do_boot (handle_18 fuel) 0) (set_boot_sequence 0 m)).
Proof.
  cbv zeta. unfold handle_19, SET_EBDA_boot_sequence. run_monad.
  destruct (do_boot _ _ _). reflexivity.
Qed.

(** do_boot writes the counter only through the recovery handler it
    raises. *)
Lemma do_boot_counter_writes (int18 : M unit) (seq_nr : Z) (m : machine) :
  counter_writes (trace_of (do_boot int18 seq_nr) m) =
  match result_of (try_boot seq_nr) m with
  | Returned _ m' => counter_writes (trace_of int18 m')
  | _ => []
  end.
Proof.
  pose proof (try_boot_writes_nothing seq_nr m) as Hw.
  unfold do_boot, trace_of, result_of in *. unfold bind at 1.
  destruct (try_boot seq_nr m) as [t [[] m' | m' | | m']]; cbn [fst snd] in *;
    try exact Hw.
  run_monad. destruct (int18 m') as [t' r]. cbn [fst snd].
  rewrite counter_writes_app, Hw. reflexivity.
Qed.

Lemma handle_18_only_increments (fuel : nat) (m : machine) :
  Forall is_increment (counter_writes (trace_of (handle_18 fuel) m)).
Proof.
  revert m. induction fuel as [| fuel IH]; intros m.
  - constructor.
  - unfold trace_of. rewrite handle_18_run. cbv zeta. cbn [fst app counter_writes].
    constructor; [reflexivity |].
    rewrite do_boot_counter_writes.
    destruct (result_of (try_boot _) _); try constructor. apply IH.
Qed.

(** C1, as the code has it: handle_19 stores 0 in the counter and
    handle_18 stores the old value plus one modulo 2^16 (the old value plus
    one whenever that is below 0xffff), each before its resolve-and-attempt
    cycle, which runs on the machine with the new counter; try_boot writes
    nothing to the counter, and in a whole run, nested recovery calls
    included, every write after handle_19's reset is such an increment. *)
Theorem boot_sequence_counter_lifecycle (fuel : nat) (m : machine) :
  let c := boot_sequence (ebda m) in
  let seq := (c + 1) mod 2 ^ 16 in
  handle_19 fuel m =
    ([DebugSerialSetup; DebugEnter "handle_19"; SetBootSequence c 0]
       ++ trace_of (do_boot (handle_18 fuel) 0) (set_boot_sequence 0 m),
     result_of (do_boot (handle_18 fuel) 0) (set_boot_sequence 0 m)) /\
  boot_sequence (ebda (set_boot_sequence 0 m)) = 0 /\
  handle_18 (S fuel) m =
    ([DebugSerialSetup; DebugEnter "handle_18"; SetBootSequence c seq]
       ++ trace_of (do_boot (handle_18 fuel) seq) (set_boot_sequence seq m),
     result_of (do_boot (handle_18 fuel) seq) (set_boot_sequence seq m)) /\
  boot_sequence (ebda (set_boot_sequence seq m)) = seq /\
  (0 <= c < 0xffff -> seq = c + 1) /\
  (forall seq_nr, counter_writes (trace_of (try_boot seq_nr) m) = []) /\
  Forall is_increment (counter_writes (trace_of (handle_18 fuel) m)) /\
  exists ws,
    counter_writes (trace_of (handle_19 fuel) m) = (c, 0) :: ws /\
    Forall is_increment ws.
Proof.
  cbv zeta. split; [apply handle_19_run |]. split; [reflexivity |].
  split; [apply handle_18_run |]. split; [reflexivity |].
  split; [intros Hc; apply Z.mod_small; lia |].
  split; [intros seq_nr; apply try_boot_writes_nothing |].
  split; [apply handle_18_only_increments |].
  unfold trace_of at 1. rewrite handle_19_run. cbv zeta.
  cbn [fst app counter_writes]. eexists. split; [reflexivity |].
  rewrite do_boot_counter_writes.
  destruct (result_of (try_boot _) _); try constructor.
  apply handle_18_only_increments.
Qed.

(** ** More of try_boot: what every attempt keeps to *)

Lemma says_when_prints (fmt : string) (t : list event) :
  prints t = false -> says fmt t = false.
Proof.
  induction t as [| e t IH]; [reflexivity |].
  unfold prints, says. cbn [existsb]. intros H.
  apply orb_false_elim in H as [He Ht].
  fold (says fmt t). rewrite (IH Ht).
  destruct e; try reflexivity. discriminate He.
Qed.

(** The three ways the switch comes out: it skipped without a trace, it
    reported a failure of a device it had touched, or it loaded without a
    word on the console. *)
Lemma try_boot_switch_outcome (bootdev ty : Z) (m m1 : machine) t loaded :
  try_boot_switch bootdev ty m = (t, Returned loaded m1) ->
  (loaded = None /\ t = [] /\ m1 = m) \/
  (loaded = None /\ reports_boot_failure t = true /\ does_device_io t = true) \/
  (loaded <> None /\ prints t = false).
Proof.
  destruct (Z.eq_dec ty IPL_TYPE_FLOPPY) as [H1 | H1];
    [| destruct (Z.eq_dec ty IPL_TYPE_HARDDISK) as [H2 | H2]].
  1, 2: rewrite switch_disk by tauto;
        rewrite try_boot_disk_run by tauto; cbv zeta;
        repeat case_if; intros H; inversion H; subst;
        first [ right; left; repeat split; reflexivity
              | right; right; split; [discriminate | reflexivity] ].
  destruct (Z.eq_dec ty IPL_TYPE_CDROM) as [-> | H3].
  { rewrite switch_cdrom, try_boot_cdrom_run. cbv zeta.
    repeat case_if; intros H; inversion H; subst;
      first [ left; repeat split; reflexivity
            | right; left; repeat split; reflexivity
            | right; right; split; [discriminate | reflexivity] ]. }
  destruct (Z.eq_dec ty IPL_TYPE_BEV) as [-> | H4].
  { rewrite switch_bev, try_boot_bev_run. cbv zeta. intros H; inversion H; subst.
    right; right; split; [discriminate | reflexivity]. }
  rewrite switch_default by assumption. intros H; inversion H; subst.
  left. repeat split.
Qed.

(** What the switch hands to the jump fits the 16-bit registers. *)
Lemma try_boot_switch_loaded_fits (bootdev ty : Z) (m m' : machine) t bootseg bootip bootdrv :
  try_boot_switch bootdev ty m = (t, Returned (Some (bootseg, bootip, bootdrv)) m') ->
  u16 bootseg = bootseg /\ u16 bootip = bootip.
Proof.
  intros Hsw.
  apply try_boot_switch_loaded in Hsw
    as [(_ & -> & -> & _) | [(_ & -> & -> & _)
       | [(_ & _ & Hcan & _) | (_ & _ & _ & -> & -> & _)]]].
  - split; reflexivity.
  - split; reflexivity.
  - injection Hcan as -> ->. split.
    + apply u16_small, land_0xf000_range.
    + apply u16_small, u16_range.
  - split; apply u16_small, u16_range.
Qed.

(** X: try_boot halts exactly when it panics, and a panic comes before
    anything is done: the machine is the one it was called on, no disk,
    CD-ROM or sector was touched, nothing was reported as a failed boot and
    control was not handed over. *)
Theorem try_boot_panics_before_any_load (seq_nr : Z) (m : machine) :
  let t := trace_of (try_boot seq_nr) m in
  let r := result_of (try_boot seq_nr) m in
  (panics t = true <-> r = Halted m) /\
  (forall m', r = Halted m' -> m' = m) /\
  (panics t = true ->
   does_device_io t = false /\ transfers t = false /\
   reports_boot_failure t = false).
Proof.
  cbv zeta. attempt_cases seq_nr m.
  1, 2, 4: split; [split; reflexivity |];
           split; [intros ? H'; injection H' as <-; reflexivity |];
           intros _; repeat split.
  - split; [split; intros H'; discriminate H' |].
    split; [intros ? H'; discriminate H' | intros H'; discriminate H'].
  - assert (Hp : panics (banner (IPL_table m idx) ++ t) = false)
      by (trace_simpl; apply load_event_not_panic; assumption).
    rewrite Hp.
    split; [split; intros H'; discriminate H' |].
    split; [intros ? H'; discriminate H' | intros H'; discriminate H'].
  - assert (Hp : panics (banner (IPL_table m idx) ++ t ++
                    [Dprintf 1 "Booting from %x:%x\n" [AInt bootseg; AInt bootip];
                     Call16 (boot_frame bootseg bootip bootdrv)]) = false).
    { trace_simpl. rewrite load_event_not_panic by assumption. reflexivity. }
    rewrite Hp. unfold finish.
    destruct (call16 (boot_frame bootseg bootip bootdrv) m');
      (split; [split; intros H'; discriminate H' |];
       split; [intros ? H'; discriminate H' | intros H'; discriminate H']).
Qed.

(** X: try_boot hands control over at most once, as the last thing it
    does, and the debug line just before shows the cs:ip of the frame. *)
Theorem transfer_is_the_last_event (seq_nr : Z) (m : machine) (frame : bregs) :
  In (Call16 frame) (trace_of (try_boot seq_nr) m) ->
  exists t0,
    trace_of (try_boot seq_nr) m =
      t0 ++ [Dprintf 1 "Booting from %x:%x\n" [AInt (cs frame); AInt (ip frame)];
             Call16 frame] /\
    transfers t0 = false.
Proof.
  intros Hin.
  destruct (try_boot_call16 _ _ _ Hin)
    as (idx & t & m' & bootseg & bootip & bootdrv & Hd & Hsw & ->).
  pose proof (dispatches_index _ _ _ Hd) as Hi.
  destruct (try_boot_switch_loaded_fits _ _ _ _ _ _ _ _ Hsw) as (Hseg & Hip).
  destruct (boot_frame_slots bootseg bootip bootdrv) as (-> & -> & _).
  rewrite Hseg, Hip.
  destruct (try_boot_switch_returns idx (type (IPL_table m idx)) m)
    as (t' & loaded & m'' & Hsw' & Hl).
  rewrite Hsw in Hsw'. injection Hsw' as <- _ _.
  unfold trace_of in *. rewrite (try_boot_dispatched _ _ _ Hd) in *.
  rewrite try_boot_load_run in * by lia. cbv zeta in *.
  destruct (bad_drive_type (type (IPL_table m idx))).
  { destruct Hin as [Hin | [Hin | []]]; discriminate Hin. }
  rewrite Hsw. cbn [fst].
  exists (banner (IPL_table m idx) ++ t). split.
  - rewrite <- app_assoc. reflexivity.
  - trace_simpl. apply load_event_not_call16. assumption.
Qed.

(** X: "Boot failed" and a control transfer exclude each other, and a
    failure is reported only for a device that was tried: when try_boot
    reports a failed boot it has touched the disk or the CD-ROM, it hands
    control to nobody, and it returns. *)
Theorem failure_report_excludes_transfer (seq_nr : Z) (m : machine) :
  let t := trace_of (try_boot seq_nr) m in
  reports_boot_failure t = true ->
  transfers t = false /\ does_device_io t = true /\
  came_back (result_of (try_boot seq_nr) m) = true.
Proof.
  cbv zeta. attempt_cases seq_nr m; try (intros H'; discriminate H').
  - match goal with
    | Hsw : try_boot_switch _ _ _ = _ |- _ =>
        apply try_boot_switch_outcome in Hsw
          as [(_ & -> & _) | [(_ & Hrep & Hio) | (Hsome & _)]]
    end.
    + trace_simpl. intros H'; discriminate H'.
    + intros _. trace_simpl. rewrite Hio.
      rewrite load_event_not_call16 by assumption. repeat split.
    + contradiction Hsome. reflexivity.
  - match goal with
    | Hsw : try_boot_switch _ _ _ = _ |- _ =>
        apply try_boot_switch_outcome in Hsw
          as [(Hnone & _) | [(Hnone & _) | (_ & Hquiet)]]
    end; try discriminate Hnone.
    trace_simpl. unfold reports_boot_failure at 1.
    rewrite (says_when_prints _ _ Hquiet). intros H'; discriminate H'.
Qed.

(** ** The console messages *)

Lemma substring_length (n : nat) (s : string) :
  (String.length (substring 0 n s) <= n)%nat.
Proof.
  revert s. induction n as [| n IH]; intros s.
  - destruct s; cbn; lia.
  - destruct s as [| c s]; cbn; [lia |]. specialize (IH s). lia.
Qed.

(** X: print_boot_device names the device by its type and returns on the
    machine it was given; floppy, hard-disk and CD-ROM entries never show
    their description, BEV entries (and type 4) show at most its first 32
    bytes when there is one; a type of 0 or above 4 other than the BEV value
    is a panic that comes after "Booting from " is already out. *)
Theorem print_boot_device_names_the_device (bootdev : Z) (m : machine) :
  let e := IPL_table m bootdev in
  (forall name,
     (type e = IPL_TYPE_FLOPPY /\ name = "Floppy") \/
     (type e = IPL_TYPE_HARDDISK /\ name = "Hard Disk") \/
     (type e = IPL_TYPE_CDROM /\ name = "CD-Rom") ->
     print_boot_device bootdev m =
       ([Printf "Booting from " []; Printf "%s" [AStr name]; Printf "...\n" []],
        Returned tt m)) /\
  (type e = IPL_TYPE_BEV \/ type e = 4 ->
   print_boot_device bootdev m =
     ([Printf "Booting from " []; Printf "%s" [AStr "Network"]]
        ++ match description e with
           | Some d => [Printf " [%.s]" [AStr (substring 0 32 d)]]
           | None => []
           end
        ++ [Printf "...\n" []],
      Returned tt m)) /\
  (type e = 0 \/ (4 < type e /\ type e <> IPL_TYPE_BEV) ->
   print_boot_device bootdev m =
     ([Printf "Booting from " []; Panic "Bad drive type\n"], Halted m)) /\
  (forall d, (String.length (substring 0 32 d) <= 32)%nat).
Proof.
  cbv zeta. rewrite print_boot_device_run. unfold bad_drive_type, banner.
  split; [| split; [| split]].
  - intros name [(-> & ->) | [(-> & ->) | (-> & ->)]];
      destruct (description (IPL_table m bootdev)); reflexivity.
  - intros [-> | ->]; destruct (description (IPL_table m bootdev)); reflexivity.
  - intros [-> | (Hgt & Hne)]; [reflexivity |].
    destruct (Z.eqb_spec (type (IPL_table m bootdev)) IPL_TYPE_BEV); [contradiction |].
    destruct (Z.gtb_spec (type (IPL_table m bootdev)) 4); [| lia].
    rewrite orb_true_r. reflexivity.
  - intros d. apply substring_length.
Qed.

(** X: print_boot_failure never says "Boot failed" without a reason.  For
    a type of 0 or above 3 it panics with nothing printed; for every other
    type it prints "Boot failed", then "not a bootable disk" when the
    reason is 0 and "could not read the boot disk" otherwise, then the blank
    line, and returns on the machine it was given. *)
Theorem print_boot_failure_always_gives_a_reason (ty reason : Z) (m : machine) :
  (ty = 0 \/ 3 < ty ->
   print_boot_failure ty reason m = ([Panic "Bad drive type\n"], Halted m)) /\
  (ty <> 0 /\ ty <= 3 ->
   print_boot_failure ty reason m =
     ([Printf "Boot failed" [];
       Printf (if reason =? 0 then ": not a bootable disk"
               else ": could not read the boot disk") [];
       Printf "\n\n" []],
      Returned tt m)).
Proof.
  unfold print_boot_failure. split.
  - intros Hty.
    assert (Hbad : (ty =? 0) || (ty >? 3) = true).
    { destruct Hty as [-> | Hgt]; [reflexivity |].
      destruct (Z.gtb_spec ty 3); [apply orb_true_r | lia]. }
    rewrite Hbad. reflexivity.
  - intros (Hnz & Hle).
    destruct (Z.eqb_spec ty 0); [contradiction |].
    destruct (Z.gtb_spec ty 3); [lia |].
    destruct (Z.ltb_spec ty 4); [| lia].
    run_monad. destruct (reason =? 0); reflexivity.
Qed.

(** ** The disk arm *)

Lemma int13_requests_app (t1 t2 : list event) :
  int13_requests (t1 ++ t2) = int13_requests t1 ++ int13_requests t2.
Proof.
  induction t1 as [| e t1 IH]; [reflexivity |].
  destruct e; cbn [app int13_requests]; rewrite IH; reflexivity.
Qed.

Lemma banner_no_int13 e : int13_requests (banner e) = [].
Proof. banner_fact e. Qed.

(** X: when the read of the first sector comes back with the carry flag
    set, a floppy or hard-disk attempt ends there: "Boot failed: could not
    read the boot disk" goes to the console, the signature is not looked at,
    control is not handed over, and try_boot returns on the machine the disk
    service left. *)
Theorem read_failure_is_reported (seq_nr idx : Z) (m : machine) :
  dispatches m seq_nr idx ->
  type (IPL_table m idx) = IPL_TYPE_HARDDISK \/
  type (IPL_table m idx) = IPL_TYPE_FLOPPY ->
  ~ read_ok (type (IPL_table m idx)) m ->
  let ty := type (IPL_table m idx) in
  let request := read_sector_request (if ty =? IPL_TYPE_HARDDISK then 0x80 else 0x00) 0x07c0 in
  try_boot seq_nr m =
    (banner (IPL_table m idx) ++
       [Int13 request (fst (sector_read ty m)); Printf "Boot failed" [];
        Printf ": could not read the boot disk" []; Printf "\n\n" []],
     Returned tt (snd (sector_read ty m))) /\
  checks_signature (trace_of (try_boot seq_nr) m) = false /\
  transfers (trace_of (try_boot seq_nr) m) = false.
Proof.
  intros Hd Hty Hfail. cbv zeta.
  pose proof (dispatches_index _ _ _ Hd) as Hi.
  assert (E : try_boot seq_nr m =
    (banner (IPL_table m idx) ++
       [Int13 (read_sector_request
                 (if type (IPL_table m idx) =? IPL_TYPE_HARDDISK then 0x80 else 0x00) 0x07c0)
              (fst (sector_read (type (IPL_table m idx)) m));
        Printf "Boot failed" [];
        Printf ": could not read the boot disk" []; Printf "\n\n" []],
     Returned tt (snd (sector_read (type (IPL_table m idx)) m)))).
  { rewrite (try_boot_dispatched _ _ _ Hd). rewrite try_boot_load_run by lia.
    cbv zeta.
    assert (Hbad : bad_drive_type (type (IPL_table m idx)) = false)
      by (destruct Hty as [-> | ->]; reflexivity).
    rewrite Hbad. rewrite switch_disk by tauto. rewrite try_boot_disk_run by tauto.
    cbv zeta. unfold read_ok, sector_read in *.
    destruct (Z.eqb_spec (Z.land (flags (fst (int13
      (read_sector_request
         (if type (IPL_table m idx) =? IPL_TYPE_HARDDISK then 128 else 0) 1984) m))) F_CF) 0)
      as [H0 | H0]; [contradiction |].
    reflexivity. }
  split; [exact E |].
  unfold trace_of. rewrite E. cbn [fst]. split; trace_simpl; reflexivity.
Qed.

Lemma try_boot_switch_int13 (bootdev ty : Z) (m : machine) :
  int13_requests (trace_of (try_boot_switch bootdev ty) m) =
  if (ty =? IPL_TYPE_FLOPPY) || (ty =? IPL_TYPE_HARDDISK)
  then [read_sector_request (if ty =? IPL_TYPE_HARDDISK then 0x80 else 0x00) 0x07c0]
  else [].
Proof.
  unfold trace_of.
  destruct (Z.eq_dec ty IPL_TYPE_FLOPPY) as [H1 | H1];
    [| destruct (Z.eq_dec ty IPL_TYPE_HARDDISK) as [H2 | H2]].
  1, 2: rewrite switch_disk by tauto;
        rewrite try_boot_disk_run by tauto; cbv zeta;
        replace ((ty =? IPL_TYPE_FLOPPY) || (ty =? IPL_TYPE_HARDDISK)) with true
          by (subst ty; reflexivity);
        repeat case_if; reflexivity.
  destruct (Z.eqb_spec ty IPL_TYPE_FLOPPY); [contradiction |].
  destruct (Z.eqb_spec ty IPL_TYPE_HARDDISK); [contradiction |].
  cbn [orb].
  destruct (Z.eq_dec ty IPL_TYPE_CDROM) as [-> | H3].
  { rewrite switch_cdrom, try_boot_cdrom_run. cbv zeta. repeat case_if; reflexivity. }
  destruct (Z.eq_dec ty IPL_TYPE_BEV) as [-> | H4].
  { rewrite switch_bev, try_boot_bev_run. reflexivity. }
  rewrite switch_default by assumption. reflexivity.
Qed.

(** X: a floppy or hard-disk attempt asks the disk service exactly once,
    whatever comes of it, and always for the same thing: function 2 (read),
    one sector, cylinder 0, head 0, sector 1, of drive 0x00 (floppy) or 0x80
    (hard disk), to 0x07c0:0000, every other register zero.  An attempt on
    any other type of entry never calls the disk service. *)
Theorem disk_attempt_reads_one_sector_once (seq_nr idx : Z) (m : machine) :
  dispatches m seq_nr idx ->
  let ty := type (IPL_table m idx) in
  let t := trace_of (try_boot seq_nr) m in
  (ty = IPL_TYPE_FLOPPY ->
   int13_requests t = [mk_bregs 0 0x07c0 0 0 0 0 0x00 0x0001 0x0201 0 0 0]) /\
  (ty = IPL_TYPE_HARDDISK ->
   int13_requests t = [mk_bregs 0 0x07c0 0 0 0 0 0x80 0x0001 0x0201 0 0 0]) /\
  (ty <> IPL_TYPE_FLOPPY -> ty <> IPL_TYPE_HARDDISK -> int13_requests t = []).
Proof.
  intros Hd. cbv zeta.
  pose proof (dispatches_index _ _ _ Hd) as Hi.
  assert (E : int13_requests (trace_of (try_boot seq_nr) m) =
              if bad_drive_type (type (IPL_table m idx)) then []
              else int13_requests
                     (trace_of (try_boot_switch idx (type (IPL_table m idx))) m)).
  { unfold trace_of. rewrite (try_boot_dispatched _ _ _ Hd).
    rewrite try_boot_load_run by lia. cbv zeta.
    destruct (bad_drive_type (type (IPL_table m idx))); [reflexivity |].
    destruct (try_boot_switch idx (type (IPL_table m idx)) m)
      as [t [[[[bootseg bootip] bootdrv] |] m' | m' | | m']];
      cbn [fst]; rewrite ?int13_requests_app, banner_no_int13; cbn [app];
      try reflexivity.
    cbn [int13_requests]. apply app_nil_r. }
  rewrite E, try_boot_switch_int13.
  split; [| split].
  - intros ->. reflexivity.
  - intros ->. reflexivity.
  - intros H1 H2.
    destruct (Z.eqb_spec (type (IPL_table m idx)) IPL_TYPE_FLOPPY); [contradiction |].
    destruct (Z.eqb_spec (type (IPL_table m idx)) IPL_TYPE_HARDDISK); [contradiction |].
    cbn [orb]. destruct (bad_drive_type _); reflexivity.
Qed.

(** ** The CD-ROM arm *)

(** X: the three ways a CD-ROM attempt goes.  With CD-ROM booting compiled
    out it is a skip: cdrom_boot is not called and nothing but the banner is
    printed.  A nonzero status of cdrom_boot is printed as the failure code,
    followed by "Boot failed: could not read the boot disk", and try_boot
    returns.  On status 0 control goes to the canonical form of the load
    segment the emulation left in the EBDA, with its emulated drive in dl. *)
Theorem cdrom_attempt_outcomes (seq_nr idx : Z) (m : machine) :
  dispatches m seq_nr idx ->
  type (IPL_table m idx) = IPL_TYPE_CDROM ->
  let e := IPL_table m idx in
  let status := fst (cdrom_boot m) in
  let m1 := snd (cdrom_boot m) in
  let target := canonicalize (cdemu_load_segment (ebda m1)) in
  let frame := boot_frame (fst target) (snd target) (cdemu_emulated_drive (ebda m1)) in
  (CONFIG_CDROM_BOOT = false ->
   try_boot seq_nr m = (banner e, Returned tt m) /\
   calls_cdrom_boot (banner e) = false) /\
  (CONFIG_CDROM_BOOT = true -> status <> 0 ->
   try_boot seq_nr m =
     (banner e ++
        [CdromBoot status; Printf "CDROM boot failure code : %04x\n" [AInt status];
         Printf "Boot failed" []; Printf ": could not read the boot disk" [];
         Printf "\n\n" []],
      Returned tt m1)) /\
  (CONFIG_CDROM_BOOT = true -> status = 0 ->
   try_boot seq_nr m =
     (banner e ++
        [CdromBoot 0;
         Dprintf 1 "Booting from %x:%x\n" [AInt (fst target); AInt (snd target)];
         Call16 frame],
      finish frame m1)).
Proof.
  intros Hd Hty. cbv zeta.
  pose proof (dispatches_index _ _ _ Hd) as Hi.
  rewrite (try_boot_dispatched _ _ _ Hd). rewrite try_boot_load_run by lia.
  cbv zeta. rewrite Hty. change (bad_drive_type IPL_TYPE_CDROM) with false.
  cbv iota. rewrite switch_cdrom, try_boot_cdrom_run. cbv zeta.
  split; [| split].
  - intros ->. cbn [negb]. rewrite app_nil_r. split; [reflexivity |].
    unfold banner. rewrite Hty. destruct (description (IPL_table m idx)); reflexivity.
  - intros -> Hs. cbn [negb].
    destruct (Z.eqb_spec (fst (cdrom_boot m)) 0); [contradiction | reflexivity].
  - intros -> Hs. cbn [negb]. rewrite Hs. reflexivity.
Qed.

(** ** The canonical far pointer *)

(** X: whatever the load segment, the canonical pair has its segment on a
    64 KiB boundary of the first megabyte (a multiple of 0x1000, at most
    0xf000) and its offset on a paragraph boundary below 64 KiB (a multiple
    of 16, at most 0xfff0); a segment that is already canonical is left
    alone with offset 0. *)
Theorem canonical_pair_is_aligned (s : Z) :
  let seg := fst (canonicalize s) in
  let off := snd (canonicalize s) in
  0 <= seg <= 0xf000 /\ seg mod 0x1000 = 0 /\
  0 <= off <= 0xfff0 /\ off mod 16 = 0 /\
  canonicalize seg = (seg, 0).
Proof.
  cbv zeta. unfold canonicalize. cbn [fst snd].
  assert (Hlow : Z.land (Z.land s 0xf000) 0x0fff = 0).
  { rewrite <- Z.land_assoc. change (Z.land 0xf000 0x0fff) with 0.
    apply Z.land_0_r. }
  assert (Hmod : Z.land s 0xf000 mod 0x1000 = 0).
  { change 0x1000 with (2 ^ 12). rewrite <- Z.land_ones by lia.
    change (Z.ones 12) with 0x0fff. exact Hlow. }
  pose proof (land_0xf000_range s) as Hr.
  rewrite land_low12_shift.
  assert (Hm : 0 <= s mod 2 ^ 12 < 2 ^ 12) by (apply Z.mod_pos_bound; lia).
  split; [| split; [exact Hmod | split; [lia | split]]].
  - split; [lia |].
    assert (Hdiv : Z.land s 0xf000 = 0x1000 * (Z.land s 0xf000 / 0x1000))
      by (apply Z.div_exact; [lia | exact Hmod]).
    assert (Z.land s 0xf000 / 0x1000 < 16)
      by (apply Z.div_lt_upper_bound; lia).
    lia.
  - rewrite Z.mul_comm. apply Z.mod_mul. lia.
  - rewrite Hlow. rewrite <- Z.land_assoc. reflexivity.
Qed.

(** ** The entry points *)

(** X: with boot support compiled out, every call of try_boot panics
    before it reads the boot order; the boot service still clears the
    counter first, the recovery service still advances it, and both halt
    without touching a device or raising the recovery interrupt. *)
Theorem boot_support_compiled_out (seq_nr : Z) (fuel : nat) (m : machine) :
  CONFIG_BOOT = false ->
  let c := boot_sequence (ebda m) in
  try_boot seq_nr m = ([Panic "Boot support not compiled in.\n"], Halted m) /\
  handle_19 fuel m =
    ([DebugSerialSetup; DebugEnter "handle_19"; SetBootSequence c 0;
      Panic "Boot support not compiled in.\n"],
     Halted (set_boot_sequence 0 m)) /\
  handle_18 (S fuel) m =
    ([DebugSerialSetup; DebugEnter "handle_18"; SetBootSequence c (u16 (c + 1));
      Panic "Boot support not compiled in.\n"],
     Halted (set_boot_sequence (u16 (c + 1)) m)).
Proof.
  intros Hc. cbv zeta.
  split; [apply try_boot_unconfigured; exact Hc |].
  rewrite handle_19_run, handle_18_run. cbv zeta.
  unfold trace_of, result_of, do_boot.
  rewrite !(bind_halted _ _ _ _ _ (try_boot_unconfigured _ _ Hc)).
  split; reflexivity.
Qed.

Lemma do_boot_result (int18 : M unit) (seq_nr : Z) (m : machine) :
  result_of (do_boot int18 seq_nr) m =
  match result_of (try_boot seq_nr) m with
  | Returned _ m' => result_of int18 m'
  | Halted m' => Halted m'
  | Departed => Departed
  | Exhausted m' => Exhausted m'
  end.
Proof.
  unfold do_boot, result_of. unfold bind at 1.
  destruct (try_boot seq_nr m) as [t [[] m' | m' | | m']]; cbn [snd]; try reflexivity.
  run_monad. destruct (int18 m'). reflexivity.
Qed.

Lemma handle_18_does_not_return (fuel : nat) (m : machine) :
  came_back (result_of (handle_18 fuel) m) = false.
Proof.
  revert m. induction fuel as [| fuel IH]; intros m; [reflexivity |].
  unfold result_of at 1. rewrite handle_18_run. cbv zeta. cbn [snd].
  rewrite do_boot_result.
  destruct (result_of (try_boot _) _); try reflexivity. apply IH.
Qed.

(** X: the entry points do not return.  do_boot comes back only if the
    handler of the recovery interrupt does, and that handler is handle_18,
    which ends in do_boot again: whatever the devices and the boot programs
    do, a run of handle_18 or handle_19 ends halted in a panic or inside a
    boot program, or is still recovering when the fuel is out. *)
Theorem entry_points_do_not_return (fuel : nat) (m : machine) :
  came_back (result_of (handle_18 fuel) m) = false /\
  came_back (result_of (handle_19 fuel) m) = false /\
  (forall (int18 : M unit) seq_nr,
     came_back (result_of (do_boot int18 seq_nr) m) = true ->
     exists m', came_back (result_of int18 m') = true).
Proof.
  split; [apply handle_18_does_not_return |]. split.
  - unfold result_of at 1. rewrite handle_19_run. cbv zeta. cbn [snd].
    rewrite do_boot_result.
    destruct (result_of (try_boot _) _); try reflexivity.
    apply handle_18_does_not_return.
  - intros int18 seq_nr. rewrite do_boot_result.
    destruct (result_of (try_boot seq_nr) m) as [[] m' | m' | | m'];
      try (intros H; discriminate H).
    intros H. exists m'. exact H.
Qed.

(** ** The recovery chain *)

Lemma try_boot_switch_keeps {X} (f : machine -> X) (bootdev ty : Z) (m m1 : machine) t loaded :
  keeps f ->
  try_boot_switch bootdev ty m = (t, Returned loaded m1) ->
  f m1 = f m.
Proof.
  intros (Hint13 & Hcd & _).
  destruct (Z.eq_dec ty IPL_TYPE_FLOPPY) as [H1 | H1];
    [| destruct (Z.eq_dec ty IPL_TYPE_HARDDISK) as [H2 | H2]].
  1, 2: rewrite switch_disk by tauto;
        rewrite try_boot_disk_run by tauto; cbv zeta;
        repeat case_if; intros H; inversion H; apply Hint13.
  destruct (Z.eq_dec ty IPL_TYPE_CDROM) as [-> | H3].
  { rewrite switch_cdrom, try_boot_cdrom_run. cbv zeta.
    repeat case_if; intros H; inversion H; first [reflexivity | apply Hcd]. }
  destruct (Z.eq_dec ty IPL_TYPE_BEV) as [-> | H4].
  { rewrite switch_bev, try_boot_bev_run. cbv zeta. intros H; inversion H. reflexivity. }
  rewrite switch_default by assumption. intros H; inversion H. reflexivity.
Qed.

(** What the collaborators leave alone, try_boot leaves alone. *)
Lemma try_boot_keeps {X} (f : machine -> X) (seq_nr : Z) (m m' : machine) u :
  keeps f ->
  result_of (try_boot seq_nr) m = Returned u m' ->
  f m' = f m.
Proof.
  intros Hk Hr. pose proof Hk as (_ & _ & Hcall).
  attempt_cases seq_nr m; try discriminate Hr.
  - injection Hr as _ <-. reflexivity.
  - injection Hr as _ <-. eapply try_boot_switch_keeps; eassumption.
  - unfold finish in Hr.
    destruct (call16 (boot_frame bootseg bootip bootdrv) m'0) as [m2 |] eqn:Ec;
      [| discriminate Hr].
    injection Hr as _ <-. rewrite (Hcall _ _ _ Ec).
    eapply try_boot_switch_keeps; eassumption.
Qed.

Lemma try_boot_never_out_of_fuel (seq_nr : Z) (m m' : machine) :
  result_of (try_boot seq_nr) m <> Exhausted m'.
Proof.
  intros Hr. attempt_cases seq_nr m; try discriminate Hr.
  unfold finish in Hr. destruct (call16 _ _); discriminate Hr.
Qed.

Lemma handle_18_chain (fuel : nat) (m : machine) :
  keeps (fun m => boot_sequence (ebda m)) ->
  exists n, (n <= fuel)%nat /\
    counter_writes (trace_of (handle_18 fuel) m) =
    increments (boot_sequence (ebda m)) n.
Proof.
  intros Hk. revert m. induction fuel as [| fuel IH]; intros m.
  - exists O. split; [lia | reflexivity].
  - unfold trace_of. rewrite handle_18_run. cbv zeta. cbn [fst app counter_writes].
    rewrite do_boot_counter_writes.
    destruct (result_of (try_boot _) _) as [u m2 | m2 | | m2] eqn:Er.
    + destruct (IH m2) as (n & Hn & E).
      exists (S n). split; [lia |]. cbn [increments]. rewrite E.
      rewrite (try_boot_keeps _ _ _ _ _ Hk Er). reflexivity.
    + exists 1%nat. split; [lia | reflexivity].
    + exists 1%nat. split; [lia | reflexivity].
    + exists 1%nat. split; [lia | reflexivity].
Qed.

(** X: when the disk service, the CD-ROM emulation and returning boot
    programs leave the counter alone, the recovery calls of one run count
    up without a gap: each nested handle_18 finds in the counter what the
    entry before it stored, so after the boot service's reset the writes are
    0 -> 1, 1 -> 2, and so on (in 16 bits), one per recovery, and no more of
    them than the fuel allows. *)
Theorem recovery_counts_up_without_gaps (fuel : nat) (m : machine) :
  keeps (fun m => boot_sequence (ebda m)) ->
  (exists n, (n <= fuel)%nat /\
     counter_writes (trace_of (handle_18 fuel) m) =
     increments (boot_sequence (ebda m)) n) /\
  (exists n, (n <= fuel)%nat /\
     counter_writes (trace_of (handle_19 fuel) m) =
     (boot_sequence (ebda m), 0) :: increments 0 n).
Proof.
  intros Hk. split; [apply handle_18_chain; exact Hk |].
  unfold trace_of. rewrite handle_19_run. cbv zeta. cbn [fst app counter_writes].
  rewrite do_boot_counter_writes.
  destruct (result_of (try_boot _) _) as [u m2 | m2 | | m2] eqn:Er.
  - destruct (handle_18_chain fuel m2 Hk) as (n & Hn & E).
    exists n. split; [exact Hn |]. rewrite E.
    rewrite (try_boot_keeps _ _ _ _ _ Hk Er). reflexivity.
  - exists O. split; [lia | reflexivity].
  - exists O. split; [lia | reflexivity].
  - exists O. split; [lia | reflexivity].
Qed.

Lemma handle_18_reaches_the_end (fuel : nat) (m : machine) (k : Z) :
  CONFIG_BOOT = true ->
  keeps (fun m => boot_sequence (ebda m)) ->
  keeps (fun m => bootorder (IPL m)) ->
  0 <= boot_sequence (ebda m) < k -> k <= 7 ->
  bootorder_field (bootorder (IPL m)) k = 0 ->
  (Z.to_nat (k - boot_sequence (ebda m)) <= fuel)%nat ->
  ended (result_of (handle_18 fuel) m) = true.
Proof.
  intros Hc Hkc Hko. revert m.
  induction fuel as [| fuel IH]; intros m Hrange Hk7 Hfield Hfuel; [lia |].
  unfold result_of at 1. rewrite handle_18_run. cbv zeta. cbn [snd].
  rewrite do_boot_result.
  rewrite (u16_small (boot_sequence (ebda m) + 1)) by lia.
  set (seq := boot_sequence (ebda m) + 1).
  set (m1 := set_boot_sequence seq m).
  destruct (Z.eq_dec seq k) as [Hlast | Hmore].
  - unfold result_of at 1. rewrite (try_boot_run _ _ Hc). cbv zeta.
    change (bootorder (IPL m1)) with (bootorder (IPL m)).
    rewrite Hlast, Hfield. reflexivity.
  - destruct (result_of (try_boot seq) m1) as [u m2 | m2 | | m2] eqn:Er;
      try reflexivity.
    + pose proof (try_boot_keeps _ _ _ _ _ Hkc Er) as Hseq.
      pose proof (try_boot_keeps _ _ _ _ _ Hko Er) as Hord.
      cbn beta in Hseq, Hord.
      change (boot_sequence (ebda m1)) with seq in Hseq.
      change (bootorder (IPL m1)) with (bootorder (IPL m)) in Hord.
      apply IH.
      * rewrite Hseq. subst seq. lia.
      * exact Hk7.
      * rewrite Hord. exact Hfield.
      * rewrite Hseq. subst seq. lia.
    + exfalso. exact (try_boot_never_out_of_fuel _ _ _ Er).
Qed.

(** X: the chain of recoveries ends at the first empty field.  If field k
    (k <= 7) of the boot order is 0 and the collaborators leave the counter
    and the boot order alone, a run of the boot service with fuel k or more
    ends, halted in a panic or inside a boot program: it neither returns nor
    needs more fuel, whatever the disks and boot programs before it do. *)
Theorem boot_service_ends_at_an_empty_field (fuel : nat) (m : machine) (k : Z) :
  CONFIG_BOOT = true ->
  keeps (fun m => boot_sequence (ebda m)) ->
  keeps (fun m => bootorder (IPL m)) ->
  0 <= k <= 7 ->
  bootorder_field (bootorder (IPL m)) k = 0 ->
  (Z.to_nat k <= fuel)%nat ->
  ended (result_of (handle_19 fuel) m) = true.
Proof.
  intros Hc Hkc Hko Hk Hfield Hfuel.
  unfold result_of at 1. rewrite handle_19_run. cbv zeta. cbn [snd].
  rewrite do_boot_result.
  set (m1 := set_boot_sequence 0 m).
  destruct (Z.eq_dec k 0) as [-> | Hpos].
  - unfold result_of at 1. rewrite (try_boot_run _ _ Hc). cbv zeta.
    change (bootorder (IPL m1)) with (bootorder (IPL m)).
    rewrite Hfield. reflexivity.
  - destruct (result_of (try_boot 0) m1) as [u m2 | m2 | | m2] eqn:Er;
      try reflexivity.
    + pose proof (try_boot_keeps _ _ _ _ _ Hkc Er) as Hseq.
      pose proof (try_boot_keeps _ _ _ _ _ Hko Er) as Hord.
      cbn beta in Hseq, Hord.
      change (boot_sequence (ebda m1)) with 0 in Hseq.
      change (bootorder (IPL m1)) with (bootorder (IPL m)) in Hord.
      apply handle_18_reaches_the_end with (k := k); try assumption.
      * rewrite Hseq. lia.
      * lia.
      * rewrite Hord. exact Hfield.
      * rewrite Hseq. replace (k - 0) with k by lia. exact Hfuel.
    + exfalso. exact (try_boot_never_out_of_fuel _ _ _ Er).
Qed.

(** ** The silent skip *)

(** Evaluates a trace predicate on a trace that is written out. *)
Ltac trace_eval_in H :=
  cbn [transfers reports_boot_failure says panics checks_signature
       does_device_io existsb is_call16 is_printf_of is_panic is_getfarvar
       is_device_io orb andb String.eqb Ascii.eqb Bool.eqb] in H.

(** X: an attempt on a table entry that ends without a control transfer,
    without "Boot failed" and without a panic has done nothing but print the
    banner: no device was touched and the machine is as it was.  That
    happens only to a CD-ROM entry when CD-ROM booting is compiled out, and
    to an entry whose type is none of floppy, hard disk, CD-ROM and BEV. *)
Theorem silent_attempt_did_nothing (seq_nr idx : Z) (m : machine) :
  dispatches m seq_nr idx ->
  let e := IPL_table m idx in
  let t := trace_of (try_boot seq_nr) m in
  transfers t = false ->
  reports_boot_failure t = false ->
  panics t = false ->
  try_boot seq_nr m = (banner e, Returned tt m) /\
  ((type e = IPL_TYPE_CDROM /\ CONFIG_CDROM_BOOT = false) \/
   (type e <> IPL_TYPE_FLOPPY /\ type e <> IPL_TYPE_HARDDISK /\
    type e <> IPL_TYPE_CDROM /\ type e <> IPL_TYPE_BEV)).
Proof.
  intros Hd. cbv zeta.
  pose proof (dispatches_index _ _ _ Hd) as Hi.
  unfold trace_of. rewrite (try_boot_dispatched _ _ _ Hd).
  rewrite try_boot_load_run by lia. cbv zeta.
  destruct (bad_drive_type (type (IPL_table m idx)));
    [intros _ _ H; discriminate H |].
  destruct (Z.eq_dec (type (IPL_table m idx)) IPL_TYPE_FLOPPY) as [H1 | H1];
    [| destruct (Z.eq_dec (type (IPL_table m idx)) IPL_TYPE_HARDDISK) as [H2 | H2]].
  1, 2: rewrite switch_disk by tauto;
        rewrite try_boot_disk_run by tauto; cbv zeta;
        repeat case_if; cbn [fst]; trace_simpl;
        intros Ht Hr Hp; trace_eval_in Ht; trace_eval_in Hr;
        first [discriminate Ht | discriminate Hr].
  destruct (Z.eq_dec (type (IPL_table m idx)) IPL_TYPE_CDROM) as [H3 | H3].
  { rewrite H3. rewrite switch_cdrom, try_boot_cdrom_run. cbv zeta.
    destruct CONFIG_CDROM_BOOT; cbn [negb].
    - case_if; cbn [fst]; trace_simpl; intros Ht Hr Hp;
        trace_eval_in Ht; trace_eval_in Hr;
        first [discriminate Ht | discriminate Hr].
    - intros _ _ _. rewrite app_nil_r. split; [reflexivity | left; tauto]. }
  destruct (Z.eq_dec (type (IPL_table m idx)) IPL_TYPE_BEV) as [H4 | H4].
  { rewrite H4. rewrite switch_bev, try_boot_bev_run. cbv zeta.
    cbn [fst]. trace_simpl. intros Ht; trace_eval_in Ht; discriminate Ht. }
  rewrite switch_default by assumption.
  intros _ _ _. rewrite app_nil_r. split; [reflexivity | right; tauto].
Qed.

End Properties.

(** ** The theorems at concrete machines *)

Module Witness.

Import Demo.


Ltac dispatch_here :=
  split; [reflexivity | split; [reflexivity | split; [discriminate | reflexivity]]].

(** The scenario of the specification: order 0x21 over [hard disk; floppy]
    with no readable medium.  The boot service tries the hard disk with the
    counter at 0, recovery the floppy at 1, and the next recovery finds the
    order exhausted at 2 and halts. *)
Example recovery_walks_the_order :
  counter_writes (trace_of (@handle_19 no_media 3) signed_disk) =
    [(0, 0); (0, 1); (1, 2)] /\
  filter is_printf (trace_of (@handle_19 no_media 3) signed_disk) =
    [Printf "Booting from " []; Printf "%s" [AStr "Hard Disk"]; Printf "...\n" [];
     Printf "Boot failed" []; Printf ": could not read the boot disk" [];
     Printf "\n\n" [];
     Printf "Booting from " []; Printf "%s" [AStr "Floppy"]; Printf "...\n" [];
     Printf "Boot failed" []; Printf ": could not read the boot disk" [];
     Printf "\n\n" []] /\
  transfers (trace_of (@handle_19 no_media 3) signed_disk) = false /\
  result_of (@handle_19 no_media 3) signed_disk = Halted (set_boot_sequence 2 signed_disk).
Proof. repeat split. Qed.

(** Attempt 1 of the order 0x21 decodes to field 2, entry 1. *)
Lemma resolve_extracts_field_witness :
  0 <= 1 <= 7 /\
  @bootorder_field good 0x21 1 = 2 /\
  @try_boot good 1 signed_disk = @try_boot_load good 1 signed_disk.
Proof.
  assert (Ha : 0 <= 1 <= 7) by lia.
  destruct (@resolve_extracts_field good 0x21 1 signed_disk Ha) as (Hf & _ & _ & Ht).
  split; [exact Ha |]. split; [exact Hf |].
  refine (Ht eq_refl eq_refl _). discriminate.
Defined.

(** An empty boot order halts at once. *)
Lemma no_bootable_device_witness :
  @CONFIG_BOOT good = true /\
  @bootorder_field good (bootorder (IPL wrapped)) 0 = 0 /\
  @try_boot good 0 wrapped = ([Panic "No bootable device.\n"], Halted wrapped).
Proof.
  destruct (@no_bootable_device_iff_field_zero good 0 wrapped eq_refl) as (_ & Hz).
  split; [reflexivity |]. split; [reflexivity |]. exact (proj1 (Hz eq_refl)).
Defined.

(** The load segment 0x07c0 becomes 0x0000:0x7c00. *)
Lemma canonicalization_law_witness :
  0 <= 0x07c0 < 2 ^ 16 /\
  canonicalize 0x07c0 = (0x0000, 0x7c00) /\
  0x0000 * 16 + 0x7c00 = 0x07c0 * 16.
Proof.
  assert (H : 0 <= 0x07c0 < 2 ^ 16) by lia.
  destruct (canonicalization_law 0x07c0 H) as (Hc & _ & Hflat).
  split; [exact H |]. split; [exact Hc | exact Hflat].
Defined.

(** A hard disk whose sector lacks the signature is refused. *)
Lemma signature_validation_policy_witness :
  @dispatches good unsigned_disk 0 0 /\
  @read_ok good IPL_TYPE_HARDDISK unsigned_disk /\
  checks_signature (trace_of (@try_boot good 0) unsigned_disk) = true /\
  transfers (trace_of (@try_boot good 0) unsigned_disk) = false /\
  reports_boot_failure (trace_of (@try_boot good 0) unsigned_disk) = true.
Proof.
  assert (Hd : @dispatches good unsigned_disk 0 0) by dispatch_here.
  assert (Hok : @read_ok good IPL_TYPE_HARDDISK unsigned_disk) by reflexivity.
  destruct (@signature_validation_policy good 0 0 unsigned_disk Hd) as (Hdisk & _).
  destruct (Hdisk (or_introl eq_refl) Hok) as (Hiff & Hchecked & _).
  assert (Hc : checks_signature (trace_of (@try_boot good 0) unsigned_disk) = true)
    by (apply Hiff; left; reflexivity).
  destruct (Hchecked Hc) as (_ & Hbad & _).
  assert (Hs : @loaded_signature good IPL_TYPE_HARDDISK unsigned_disk <> MBR_SIGNATURE)
    by discriminate.
  destruct (Hbad Hs) as (Ht & Hr & _).
  split; [exact Hd |]. split; [exact Hok |]. split; [exact Hc |].
  split; [exact Ht | exact Hr].
Defined.

(** Type 4 is skipped in silence. *)
Lemma unhandled_type_outcome_witness :
  @dispatches good type_four 0 0 /\
  type (@IPL_table good type_four 0) = 4 /\
  @try_boot good 0 type_four =
    ([Printf "Booting from " []; Printf "%s" [AStr "Network"]; Printf "...\n" []],
     Returned tt type_four).
Proof.
  assert (Hd : @dispatches good type_four 0 0) by dispatch_here.
  destruct (@unhandled_type_outcome good 0 0 type_four Hd) as (_ & Hfour).
  split; [exact Hd |]. split; [reflexivity |]. exact (proj1 (Hfour eq_refl)).
Defined.

(** Entry 2 of a table of two is only diagnosed. *)
Lemma index_beyond_count_witness :
  @CONFIG_BOOT good = true /\
  @bootorder_field good (bootorder (IPL beyond_count)) 0 = 2 + 1 /\
  0 <= 2 /\ count (IPL beyond_count) <= 2 /\
  @try_boot good 0 beyond_count =
    ([Dprintf 1 "Invalid boot device (0x%x)\n" [AInt 2]], Returned tt beyond_count).
Proof.
  assert (H0 : 0 <= 2) by discriminate.
  assert (Hc : count (IPL beyond_count) <= 2) by discriminate.
  destruct (@index_beyond_count_is_only_diagnosed good 0 2 beyond_count
              eq_refl eq_refl H0 Hc) as (E & _).
  split; [reflexivity |]. split; [reflexivity |]. split; [exact H0 |].
  split; [exact Hc | exact E].
Defined.

(** The ROM with vector 0x12340056 is entered at 0x1234:0x0056. *)
Lemma bev_entry_witness :
  @dispatches good rom_only 0 0 /\
  type (@IPL_table good rom_only 0) = IPL_TYPE_BEV /\
  0 <= vector (@IPL_table good rom_only 0) < 2 ^ 32 /\
  cs (boot_frame 0x1234 0x0056 0) = 0x1234 /\
  ip (boot_frame 0x1234 0x0056 0) = 0x0056 /\
  dl (boot_frame 0x1234 0x0056 0) = 0 /\
  does_device_io (trace_of (@try_boot good 0) rom_only) = false.
Proof.
  assert (Hd : @dispatches good rom_only 0 0) by dispatch_here.
  assert (Hv : 0 <= vector (@IPL_table good rom_only 0) < 2 ^ 32)
    by (split; [discriminate | reflexivity]).
  destruct (@bev_entry_jumps_to_its_vector good 0 0 rom_only Hd eq_refl Hv)
    as (_ & Hcs & Hip & Hdl & Hio & _).
  split; [exact Hd |]. split; [reflexivity |]. split; [exact Hv |].
  split; [exact Hcs |]. split; [exact Hip |]. split; [exact Hdl | exact Hio].
Defined.

(** The frame of a hard-disk boot. *)
Lemma control_transfer_frame_witness :
  In (Call16 (boot_frame 0 0x7c00 0x80)) (trace_of (@try_boot good 0) signed_disk) /\
  exists idx,
    @dispatches good signed_disk 0 idx /\
    ax (boot_frame 0 0x7c00 0x80) = 0xaa55.
Proof.
  assert (Hin : In (Call16 (boot_frame 0 0x7c00 0x80))
                   (trace_of (@try_boot good 0) signed_disk)).
  { vm_compute. do 6 right. left. reflexivity. }
  destruct (@control_transfer_frame good 0 signed_disk _ Hin) as (idx & Hd & Hax & _).
  split; [exact Hin |]. exists idx. split; assumption.
Defined.

(** The same frame has nothing in its other slots. *)
Lemma control_transfer_frame_rest_zero_witness :
  In (Call16 (boot_frame 0 0x7c00 0x80)) (trace_of (@try_boot good 0) signed_disk) /\
  ds (boot_frame 0 0x7c00 0x80) = 0 /\
  es (boot_frame 0 0x7c00 0x80) = 0 /\
  edx (boot_frame 0 0x7c00 0x80) = dl (boot_frame 0 0x7c00 0x80).
Proof.
  assert (Hin : In (Call16 (boot_frame 0 0x7c00 0x80))
                   (trace_of (@try_boot good 0) signed_disk)).
  { vm_compute. do 6 right. left. reflexivity. }
  destruct (@control_transfer_frame_rest_zero good 0 signed_disk _ Hin)
    as (Hds & Hes & _ & _ & _ & _ & _ & _ & Hedx & _).
  split; [exact Hin |]. split; [exact Hds |]. split; [exact Hes | exact Hedx].
Defined.

(** From 2 the recovery entry goes to 3. *)
Lemma boot_sequence_counter_witness :
  0 <= boot_sequence (ebda third_attempt) < 0xffff /\
  (boot_sequence (ebda third_attempt) + 1) mod 2 ^ 16 = 2 + 1.
Proof.
  assert (Hc : 0 <= boot_sequence (ebda third_attempt) < 0xffff)
    by (split; [discriminate | reflexivity]).
  destruct (@boot_sequence_counter_lifecycle good 0 third_attempt)
    as (_ & _ & _ & _ & Hinc & _).
  split; [exact Hc | exact (Hinc Hc)].
Defined.

(** C1 as stated fails where the counter is 0xffff: handle_18 stores 0, which
    is neither 0xffff + 1 nor above the old value. *)
Lemma recovery_counter_wraps_at_0xffff :
  boot_sequence (ebda wrapped) = 0xffff /\
  @handle_18 good 1 wrapped =
    ([DebugSerialSetup; DebugEnter "handle_18"; SetBootSequence 0xffff 0;
      Panic "No bootable device.\n"],
     Halted (set_boot_sequence 0 wrapped)) /\
  0 <> 0xffff + 1 /\ 0 < 0xffff /\
  ~ (forall (P : Platform) fuel m prev next,
       In (prev, next) (counter_writes (trace_of (@handle_18 P fuel) m)) ->
       next = prev + 1).
Proof.
  split; [reflexivity |]. split; [reflexivity |].
  split; [discriminate |]. split; [reflexivity |].
  intros H. specialize (H good 1%nat wrapped 0xffff 0 (or_introl eq_refl)).
  discriminate H.
Qed.

(** C5 as stated fails for a type-0 entry: try_boot does not return, it
    halts in the "Bad drive type" panic. *)
Lemma placeholder_entry_panics :
  @dispatches good placeholder 0 0 /\
  type (@IPL_table good placeholder 0) = 0 /\
  @try_boot good 0 placeholder =
    ([Printf "Booting from " []; Panic "Bad drive type\n"], Halted placeholder) /\
  ~ (exists m', result_of (@try_boot good 0) placeholder = Returned tt m').
Proof.
  split; [dispatch_here |]. split; [reflexivity |]. split; [reflexivity |].
  intros (m' & H). discriminate H.
Qed.

(** *** The further properties at concrete machines *)

(** The PCs of [Demo] hand the machine back as they got it. *)
Lemma pc_keeps {X} (f : machine -> X) disk_ok cd_status comes_back :
  @keeps (pc disk_ok cd_status comes_back) X f.
Proof.
  split; [| split].
  - intros cr m. reflexivity.
  - intros m. reflexivity.
  - intros cr m m'. cbn. destruct comes_back; intros H; [| discriminate H].
    injection H as <-. reflexivity.
Defined.

(** The type-0 entry: the panic comes before any device is touched. *)
Lemma try_boot_panics_before_any_load_witness :
  panics (trace_of (@try_boot good 0) placeholder) = true /\
  result_of (@try_boot good 0) placeholder = Halted placeholder /\
  does_device_io (trace_of (@try_boot good 0) placeholder) = false.
Proof.
  destruct (@try_boot_panics_before_any_load good 0 placeholder) as (Hiff & _ & Hpre).
  assert (Hp : panics (trace_of (@try_boot good 0) placeholder) = true) by reflexivity.
  split; [exact Hp |]. split; [exact (proj1 Hiff Hp) |].
  exact (proj1 (Hpre Hp)).
Defined.

(** The hard-disk boot ends in its call16. *)
Lemma transfer_is_the_last_event_witness :
  In (Call16 (boot_frame 0 0x7c00 0x80)) (trace_of (@try_boot good 0) signed_disk) /\
  exists t0,
    trace_of (@try_boot good 0) signed_disk =
      t0 ++ [Dprintf 1 "Booting from %x:%x\n" [AInt 0; AInt 0x7c00];
             Call16 (boot_frame 0 0x7c00 0x80)] /\
    transfers t0 = false.
Proof.
  assert (Hin : In (Call16 (boot_frame 0 0x7c00 0x80))
                   (trace_of (@try_boot good 0) signed_disk)).
  { vm_compute. do 6 right. left. reflexivity. }
  split; [exact Hin |].
  exact (@transfer_is_the_last_event good 0 signed_disk _ Hin).
Defined.

(** The unsigned hard disk: a failure report and no transfer. *)
Lemma failure_report_excludes_transfer_witness :
  reports_boot_failure (trace_of (@try_boot good 0) unsigned_disk) = true /\
  transfers (trace_of (@try_boot good 0) unsigned_disk) = false /\
  does_device_io (trace_of (@try_boot good 0) unsigned_disk) = true.
Proof.
  assert (Hr : reports_boot_failure (trace_of (@try_boot good 0) unsigned_disk) = true)
    by reflexivity.
  destruct (@failure_report_excludes_transfer good 0 unsigned_disk Hr) as (Ht & Hio & _).
  split; [exact Hr |]. split; [exact Ht | exact Hio].
Defined.

(** The ROM's banner carries its description. *)
Lemma print_boot_device_names_the_device_witness :
  type (@IPL_table good rom_only 0) = IPL_TYPE_BEV /\
  @print_boot_device good 0 rom_only =
    ([Printf "Booting from " []; Printf "%s" [AStr "Network"];
      Printf " [%.s]" [AStr "PXE"]; Printf "...\n" []],
     Returned tt rom_only).
Proof.
  destruct (@print_boot_device_names_the_device good 0 rom_only) as (_ & Hbev & _).
  split; [reflexivity |]. exact (Hbev (or_introl eq_refl)).
Defined.

(** A hard disk that is not bootable. *)
Lemma print_boot_failure_witness :
  (2 <> 0 /\ 2 <= 3) /\
  print_boot_failure 2 0 signed_disk =
    ([Printf "Boot failed" []; Printf ": not a bootable disk" []; Printf "\n\n" []],
     Returned tt signed_disk).
Proof.
  assert (H : 2 <> 0 /\ 2 <= 3) by (split; discriminate).
  destruct (print_boot_failure_always_gives_a_reason 2 0 signed_disk) as (_ & Hok).
  split; [exact H | exact (Hok H)].
Defined.

(** No medium in the hard disk. *)
Lemma read_failure_is_reported_witness :
  @dispatches no_media signed_disk 0 0 /\
  type (@IPL_table no_media signed_disk 0) = IPL_TYPE_HARDDISK /\
  ~ @read_ok no_media IPL_TYPE_HARDDISK signed_disk /\
  checks_signature (trace_of (@try_boot no_media 0) signed_disk) = false /\
  transfers (trace_of (@try_boot no_media 0) signed_disk) = false.
Proof.
  assert (Hd : @dispatches no_media signed_disk 0 0) by dispatch_here.
  assert (Hf : ~ @read_ok no_media IPL_TYPE_HARDDISK signed_disk)
    by (intros H; discriminate H).
  destruct (@read_failure_is_reported no_media 0 0 signed_disk Hd (or_introl eq_refl) Hf)
    as (_ & Hc & Ht).
  split; [exact Hd |]. split; [reflexivity |]. split; [exact Hf |].
  split; [exact Hc | exact Ht].
Defined.

(** The one read of a hard-disk boot. *)
Lemma disk_attempt_reads_one_sector_once_witness :
  @dispatches good signed_disk 0 0 /\
  int13_requests (trace_of (@try_boot good 0) signed_disk) =
    [mk_bregs 0 0x07c0 0 0 0 0 0x80 0x0001 0x0201 0 0 0].
Proof.
  assert (Hd : @dispatches good signed_disk 0 0) by dispatch_here.
  destruct (@disk_attempt_reads_one_sector_once good 0 0 signed_disk Hd) as (_ & Hhd & _).
  split; [exact Hd | exact (Hhd eq_refl)].
Defined.

(** A CD-ROM whose emulation answers status 3. *)
Lemma cdrom_attempt_outcomes_witness :
  @dispatches cd_fails cd_only 0 0 /\
  type (@IPL_table cd_fails cd_only 0) = IPL_TYPE_CDROM /\
  @try_boot cd_fails 0 cd_only =
    ([Printf "Booting from " []; Printf "%s" [AStr "CD-Rom"]; Printf "...\n" [];
      CdromBoot 3; Printf "CDROM boot failure code : %04x\n" [AInt 3];
      Printf "Boot failed" []; Printf ": could not read the boot disk" [];
      Printf "\n\n" []],
     Returned tt cd_only).
Proof.
  assert (Hd : @dispatches cd_fails cd_only 0 0) by dispatch_here.
  destruct (@cdrom_attempt_outcomes cd_fails 0 0 cd_only Hd eq_refl) as (_ & Hfail & _).
  assert (Hs : fst (@cdrom_boot cd_fails cd_only) <> 0) by discriminate.
  split; [exact Hd |]. split; [reflexivity |]. exact (Hfail eq_refl Hs).
Defined.

(** A firmware without boot support halts in the boot service. *)
Lemma boot_support_compiled_out_witness :
  @CONFIG_BOOT no_boot = false /\
  @handle_19 no_boot 1 signed_disk =
    ([DebugSerialSetup; DebugEnter "handle_19"; SetBootSequence 0 0;
      Panic "Boot support not compiled in.\n"],
     Halted (set_boot_sequence 0 signed_disk)).
Proof.
  destruct (@boot_support_compiled_out no_boot 0 1 signed_disk eq_refl) as (_ & H19 & _).
  split; [reflexivity | exact H19].
Defined.

(** A handler that returns is what it takes for do_boot to return. *)
Lemma entry_points_do_not_return_witness :
  came_back (result_of (@do_boot no_media (ret tt) 0) signed_disk) = true /\
  exists m', came_back (result_of (@ret unit tt) m') = true.
Proof.
  assert (H : came_back (result_of (@do_boot no_media (ret tt) 0) signed_disk) = true)
    by reflexivity.
  destruct (@entry_points_do_not_return no_media 0 signed_disk) as (_ & _ & Hdo).
  split; [exact H | exact (Hdo (ret tt) 0 H)].
Defined.

(** With no medium anywhere the counter goes 0, 1, 2. *)
Lemma recovery_counts_up_without_gaps_witness :
  @keeps no_media Z (fun m => boot_sequence (ebda m)) /\
  exists n, (n <= 3)%nat /\
    counter_writes (trace_of (@handle_19 no_media 3) signed_disk) =
    (0, 0) :: increments 0 n.
Proof.
  assert (Hk : @keeps no_media Z (fun m => boot_sequence (ebda m)))
    by apply pc_keeps.
  split; [exact Hk |].
  exact (proj2 (@recovery_counts_up_without_gaps no_media 3 signed_disk Hk)).
Defined.

(** The order 0x21 is empty at field 2: two units of fuel see the end. *)
Lemma boot_service_ends_at_an_empty_field_witness :
  @CONFIG_BOOT no_media = true /\
  @keeps no_media Z (fun m => boot_sequence (ebda m)) /\
  @keeps no_media Z (fun m => bootorder (IPL m)) /\
  0 <= 2 <= 7 /\
  @bootorder_field no_media (bootorder (IPL signed_disk)) 2 = 0 /\
  (Z.to_nat 2 <= 2)%nat /\
  ended (result_of (@handle_19 no_media 2) signed_disk) = true.
Proof.
  assert (Hkc : @keeps no_media Z (fun m => boot_sequence (ebda m))) by apply pc_keeps.
  assert (Hko : @keeps no_media Z (fun m => bootorder (IPL m))) by apply pc_keeps.
  assert (Hk : 0 <= 2 <= 7) by (split; discriminate).
  assert (Hfuel : (Z.to_nat 2 <= 2)%nat) by (apply le_n).
  split; [reflexivity |]. split; [exact Hkc |]. split; [exact Hko |].
  split; [exact Hk |]. split; [reflexivity |]. split; [exact Hfuel |].
  exact (@boot_service_ends_at_an_empty_field no_media 2 signed_disk 2
           eq_refl Hkc Hko Hk eq_refl Hfuel).
Defined.

(** The type-4 entry is the silent one. *)
Lemma silent_attempt_did_nothing_witness :
  @dispatches good type_four 0 0 /\
  transfers (trace_of (@try_boot good 0) type_four) = false /\
  reports_boot_failure (trace_of (@try_boot good 0) type_four) = false /\
  panics (trace_of (@try_boot good 0) type_four) = false /\
  @try_boot good 0 type_four = (banner (@IPL_table good type_four 0), Returned tt type_four).
Proof.
  assert (Hd : @dispatches good type_four 0 0) by dispatch_here.
  destruct (@silent_attempt_did_nothing good 0 0 type_four Hd eq_refl eq_refl eq_refl)
    as (E & _).
  split; [exact Hd |]. repeat (split; [reflexivity |]). exact E.
Defined.

End Witness.
